(** * Floral arrangement server: taxonomy matching, prompt formatting and
      workflow construction

    A shallow embedding of [floral_arrangement_mcp/server.py].

    Python values are embedded as follows.
    - [str] is [string].  The embedding covers ASCII text: [lower], [title]
      and the white space accepted by [int] act on ASCII characters and leave
      every other character as it is.
    - a [dict] is an association list with unique keys in insertion order
      (Python dictionaries iterate in insertion order and several functions
      return the first match of such an iteration).
    - [pyval] has the forms of value the program builds: strings, integers,
      float constants, lists, and dictionaries with string keys.
    - an exception is a [Raise] result. *)

From Stdlib Require Import String Ascii List ZArith Bool Lia.
From Stdlib Require Import DecimalString DecimalPos DecimalZ.
Import ListNotations.

Set Warnings "-register-all".

Open Scope list_scope.
Open Scope bool_scope.
Open Scope string_scope.

(** ** Exceptions *)

Inductive exn : Type :=
| KeyError (key : string)
| ValueError
| TypeError
| AttributeError.

Inductive res (A : Type) : Type :=
| Ok (a : A)
| Raise (e : exn).

Arguments Ok {A} a.
Arguments Raise {A} e.

Definition bind {A B : Type} (m : res A) (k : A -> res B) : res B :=
  match m with
  | Ok a => k a
  | Raise e => Raise e
  end.

Notation "x <- m ;; k" := (bind m (fun x => k))
  (at level 61, m at next level, right associativity).

Fixpoint mapM {A B : Type} (f : A -> res B) (l : list A) : res (list B) :=
  match l with
  | [] => Ok []
  | a :: t => b <- f a ;; bs <- mapM f t ;; Ok (b :: bs)
  end.

(** ** Strings *)

Module Str.

(** [prefix p s]: [s.startswith(p)]. *)
Fixpoint prefix (p s : string) : bool :=
  match p, s with
  | EmptyString, _ => true
  | String a p', String b s' => Ascii.eqb a b && prefix p' s'
  | String _ _, EmptyString => false
  end.

(** [contains needle hay]: the Python test [needle in hay]. *)
Fixpoint contains (needle hay : string) : bool :=
  prefix needle hay ||
  match hay with
  | EmptyString => false
  | String _ t => contains needle t
  end.

Definition is_upper (c : ascii) : bool :=
  let n := nat_of_ascii c in Nat.leb 65 n && Nat.leb n 90.

Definition is_lower (c : ascii) : bool :=
  let n := nat_of_ascii c in Nat.leb 97 n && Nat.leb n 122.

Definition lower_char (c : ascii) : ascii :=
  if is_upper c then ascii_of_nat (nat_of_ascii c + 32) else c.

Definition upper_char (c : ascii) : ascii :=
  if is_lower c then ascii_of_nat (nat_of_ascii c - 32) else c.

(** [s.lower()]. *)
Fixpoint lower (s : string) : string :=
  match s with
  | EmptyString => EmptyString
  | String c t => String (lower_char c) (lower t)
  end.

(** [s.replace(a, b)] for one-character [a] and [b]. *)
Fixpoint replace (a b : ascii) (s : string) : string :=
  match s with
  | EmptyString => EmptyString
  | String c t => String (if Ascii.eqb c a then b else c) (replace a b t)
  end.

(** [s.title()]: a letter that follows a letter is lower-cased, any other
    letter is upper-cased. *)
Fixpoint title_from (prev_cased : bool) (s : string) : string :=
  match s with
  | EmptyString => EmptyString
  | String c t =>
      let cased := is_upper c || is_lower c in
      String (if prev_cased then lower_char c else upper_char c)
             (title_from cased t)
  end.

Definition title (s : string) : string := title_from false s.

(** [sep.join(l)]. *)
Fixpoint join (sep : string) (l : list string) : string :=
  match l with
  | [] => ""
  | [s] => s
  | s :: t => s ++ sep ++ join sep t
  end.

(** [s.split(c)] for a one-character separator: never the empty list. *)
Fixpoint split (c : ascii) (s : string) : list string :=
  match s with
  | EmptyString => [""]
  | String a t =>
      if Ascii.eqb a c then "" :: split c t
      else match split c t with
           | [] => [String a ""]
           | w :: ws => String a w :: ws
           end
  end.








End Str.

(** ** Values *)

(** A float is named by its [repr], the shortest decimal text that reads back
    as the same double; the program only stores float constants. *)
Inductive pyval : Type :=
| PStr (s : string)
| PInt (z : Z)
| PFloat (repr : string)
| PList (l : list pyval)
| PDict (d : list (string * pyval)).

Definition dict : Type := list (string * pyval).

Module Dict.

Section Generic.
Context {V : Type}.

(** [d.get(k)]; [None] when the key is absent. *)
Fixpoint get (d : list (string * V)) (k : string) : option V :=
  match d with
  | [] => None
  | (k', v) :: t => if String.eqb k' k then Some v else get t k
  end.

(** [k in d]. *)
Definition mem (k : string) (d : list (string * V)) : bool :=
  match get d k with Some _ => true | None => false end.

(** [d[k]]. *)
Definition getitem (d : list (string * V)) (k : string) : res V :=
  match get d k with
  | Some v => Ok v
  | None => Raise (KeyError k)
  end.

(** [d[k] = v]: an existing key keeps its place. *)
Fixpoint set (d : list (string * V)) (k : string) (v : V) : list (string * V) :=
  match d with
  | [] => [(k, v)]
  | (k', v') :: t =>
      if String.eqb k' k then (k', v) :: t else (k', v') :: set t k v
  end.

(** [list(d.keys())]. *)
Definition keys (d : list (string * V)) : list string := map fst d.

(** [list(d.values())]. *)
Definition values (d : list (string * V)) : list V := map snd d.
End Generic.

(** The display [{k1: v1, ..., **d}]. *)
Definition spread (fields : dict) (d : dict) : dict :=
  fold_left (fun acc kv => set acc (fst kv) (snd kv)) d fields.

End Dict.

(** [x == s] for a string literal [s] and the result [x] of [d.get(k)]. *)
Definition eq_str (x : option pyval) (s : string) : bool :=
  match x with
  | Some (PStr t) => String.eqb t s
  | _ => false
  end.

(** Truth value of a Python object. *)
Definition truthy (v : pyval) : bool :=
  match v with
  | PStr s => negb (String.eqb s "")
  | PInt z => negb (Z.eqb z 0)
  | PFloat r => negb (String.eqb r "0.0" || String.eqb r "-0.0")
  | PList l => match l with [] => false | _ => true end
  | PDict d => match d with [] => false | _ => true end
  end.

(** *** [repr] and [str] *)

Module Repr.

Definition hex_digit (n : nat) : ascii :=
  if Nat.ltb n 10 then ascii_of_nat (48 + n) else ascii_of_nat (87 + n).

Definition escape_char (quote c : ascii) : string :=
  let n := nat_of_ascii c in
  if Ascii.eqb c quote then String "\" (String c "")
  else if Ascii.eqb c "\" then "\\"
  else if Nat.eqb n 9 then "\t"
  else if Nat.eqb n 10 then "\n"
  else if Nat.eqb n 13 then "\r"
  else if Nat.ltb n 32 || Nat.eqb n 127 then
    "\x" ++ String (hex_digit (n / 16)) (String (hex_digit (n mod 16)) "")
  else String c "".

Fixpoint escape (quote : ascii) (s : string) : string :=
  match s with
  | EmptyString => ""
  | String c t => escape_char quote c ++ escape quote t
  end.

(** [repr(s)]: single quotes, unless [s] has a single quote and no double
    quote. *)
Definition of_str (s : string) : string :=
  let dq := ascii_of_nat 34 in
  let q := if Str.contains "'" s && negb (Str.contains (String dq "") s)
           then dq else "'"%char in
  String q (escape q s ++ String q "").

Definition of_int (z : Z) : string := NilZero.string_of_int (Z.to_int z).

Fixpoint of_val (v : pyval) : string :=
  match v with
  | PStr s => of_str s
  | PInt z => of_int z
  | PFloat r => r
  | PList l => "[" ++ Str.join ", " (map of_val l) ++ "]"
  | PDict d =>
      "{" ++ Str.join ", "
               (map (fun kv => of_str (fst kv) ++ ": " ++ of_val (snd kv)) d)
          ++ "}"
  end.

End Repr.

(** [str(v)] is [repr(v)] except on a string. *)
Definition py_str (v : pyval) : string :=
  match v with
  | PStr s => s
  | _ => Repr.of_val v
  end.

(** ** Layer 1: the taxonomy tables

    The module-level dictionaries of the server, entry for entry and in
    source order. *)

Definition ARRANGEMENT_STYLES : list (string * list (string * dict)) :=
  [("ikebana",
    [("moribana",
      [("description", PStr "Low bowl arrangement, naturalistic landscape");
       ("container", PStr "shallow bowl, suiban");
       ("characteristics", PStr "horizontal emphasis, nature scenery, kenzan pin holder");
       ("balance", PStr "asymmetrical");
       ("complexity", PStr "high")]);
     ("nageire",
      [("description", PStr "Tall vase arrangement, flowing asymmetrical");
       ("container", PStr "tall cylindrical vase");
       ("characteristics", PStr "natural grace, no mechanics visible, stem supports stem");
       ("balance", PStr "asymmetrical");
       ("complexity", PStr "medium")]);
     ("rikka",
      [("description", PStr "Formal standing flowers, classical seven-branch");
       ("container", PStr "bronze or ceramic vase");
       ("characteristics", PStr "symbolic cosmic mountain, rigid structure, ceremonial");
       ("balance", PStr "symmetrical");
       ("complexity", PStr "very high")])]);
   ("western_classical",
    [("cascade",
      [("description", PStr "Waterfall flow with trailing elements");
       ("container", PStr "elevated pedestal vase or urn");
       ("characteristics", PStr "dramatic downward movement, trailing vines, 1.5x container height drop");
       ("balance", PStr "asymmetrical");
       ("complexity", PStr "high")]);
     ("crescent",
      [("description", PStr "Curved asymmetrical arc, moon-shaped");
       ("container", PStr "low bowl or compote");
       ("characteristics", PStr "graceful curve, negative space emphasis, 60-degree arc");
       ("balance", PStr "asymmetrical");
       ("complexity", PStr "medium")]);
     ("hogarth",
      [("description", PStr "S-curve, line of beauty");
       ("container", PStr "pedestal vase or urn");
       ("characteristics", PStr "flowing S-shape, dynamic movement, elegant proportion");
       ("balance", PStr "asymmetrical");
       ("complexity", PStr "high")]);
     ("dome",
      [("description", PStr "Rounded symmetrical mass");
       ("container", PStr "low bowl, vase, or compote");
       ("characteristics", PStr "equal dimensions all sides, full 360-degree viewing, dense");
       ("balance", PStr "radial symmetrical");
       ("complexity", PStr "low")]);
     ("triangular",
      [("description", PStr "Stable pyramid form");
       ("container", PStr "any stable base");
       ("characteristics", PStr "wide base tapering to point, classical proportion, formal");
       ("balance", PStr "symmetrical");
       ("complexity", PStr "low")]);
     ("vertical",
      [("description", PStr "Tall upright emphasis");
       ("container", PStr "tall narrow vase");
       ("characteristics", PStr "height 2-3x container, upward movement, line flowers dominant");
       ("balance", PStr "symmetrical or asymmetrical");
       ("complexity", PStr "low")]);
     ("horizontal",
      [("description", PStr "Low spreading centerpiece");
       ("container", PStr "long low container or candelabra");
       ("characteristics", PStr "width 3x height, table centerpiece, conversation-friendly");
       ("balance", PStr "symmetrical");
       ("complexity", PStr "medium")])]);
   ("contemporary",
    [("minimalist",
      [("description", PStr "Few stems, negative space emphasis");
       ("container", PStr "simple geometric vessel");
       ("characteristics", PStr "3-7 stems maximum, sculptural form, breathing space");
       ("balance", PStr "asymmetrical");
       ("complexity", PStr "medium")]);
     ("structural",
      [("description", PStr "Architectural, geometric forms");
       ("container", PStr "modern cube, cylinder, or asymmetric");
       ("characteristics", PStr "bold lines, repetition, graphic shapes, non-traditional materials");
       ("balance", PStr "often asymmetrical");
       ("complexity", PStr "high")]);
     ("garden_style",
      [("description", PStr "Loose, natural, abundant");
       ("container", PStr "rustic basket, vintage vessel");
       ("characteristics", PStr "just-picked feel, varied textures, romantic fullness, organic");
       ("balance", PStr "asymmetrical");
       ("complexity", PStr "medium")]);
     ("parallel",
      [("description", PStr "Stems grouped in vertical lines");
       ("container", PStr "rectangular or cylindrical");
       ("characteristics", PStr "stems visible through glass, grouped bundles, modern clean");
       ("balance", PStr "symmetrical or asymmetrical");
       ("complexity", PStr "low")])])].

Definition FLOWERS_BY_ROLE : list (string * list (string * dict)) :=
  [("focal",
    [("roses",
      [("types", PList [PStr "garden roses"; PStr "spray roses"; PStr "hybrid tea"; PStr "English roses"]);
       ("characteristics", PStr "classic beauty, layered petals, focal point dominance");
       ("color_range", PStr "full spectrum");
       ("size", PStr "large 3-5 inches");
       ("seasons", PList [PStr "spring"; PStr "summer"; PStr "fall"]);
       ("symbolism", PStr "love, romance, elegance")]);
     ("peonies",
      [("types", PList [PStr "herbaceous"; PStr "tree peony"; PStr "Itoh hybrid"]);
       ("characteristics", PStr "lush ruffled petals, full bloom drama, short season");
       ("color_range", PStr "white, pink, coral, burgundy");
       ("size", PStr "very large 4-6 inches");
       ("seasons", PList [PStr "late spring"; PStr "early summer"]);
       ("symbolism", PStr "prosperity, honor, romance")]);
     ("lilies",
      [("types", PList [PStr "oriental"; PStr "asiatic"; PStr "calla"; PStr "trumpet"]);
       ("characteristics", PStr "dramatic form, strong fragrance (oriental), architectural");
       ("color_range", PStr "full spectrum");
       ("size", PStr "large 4-6 inches per bloom");
       ("seasons", PList [PStr "summer"; PStr "fall"]);
       ("symbolism", PStr "purity, majesty, sophistication")]);
     ("orchids",
      [("types", PList [PStr "phalaenopsis"; PStr "cymbidium"; PStr "dendrobium"; PStr "vanda"]);
       ("characteristics", PStr "exotic elegance, long-lasting, tropical");
       ("color_range", PStr "white, pink, purple, yellow, green");
       ("size", PStr "medium 2-4 inches");
       ("seasons", PList [PStr "year-round"]);
       ("symbolism", PStr "luxury, refinement, beauty")]);
     ("hydrangeas",
      [("types", PList [PStr "mophead"; PStr "lacecap"; PStr "paniculata"; PStr "oakleaf"]);
       ("characteristics", PStr "full mass, color-changing, garden feel");
       ("color_range", PStr "blue, pink, white, green, purple");
       ("size", PStr "very large 6-8 inch heads");
       ("seasons", PList [PStr "summer"; PStr "fall"]);
       ("symbolism", PStr "gratitude, abundance, heartfelt emotion")]);
     ("sunflowers",
      [("types", PList [PStr "giant"; PStr "teddy bear"; PStr "moulin rouge"; PStr "autumn beauty"]);
       ("characteristics", PStr "bold face, cheerful, rustic charm");
       ("color_range", PStr "yellow, orange, burgundy, bronze");
       ("size", PStr "large 4-10 inches");
       ("seasons", PList [PStr "summer"; PStr "fall"]);
       ("symbolism", PStr "happiness, loyalty, longevity")]);
     ("dahlias",
      [("types", PList [PStr "dinner plate"; PStr "cactus"; PStr "pompon"; PStr "decorative"]);
       ("characteristics", PStr "geometric petals, bold color, garden luxury");
       ("color_range", PStr "full spectrum except blue");
       ("size", PStr "small to very large 2-10 inches");
       ("seasons", PList [PStr "late summer"; PStr "fall"]);
       ("symbolism", PStr "elegance, dignity, commitment")])]);
   ("line",
    [("snapdragons",
      [("characteristics", PStr "vertical spikes, graduated blooms, height emphasis");
       ("color_range", PStr "full spectrum");
       ("height", PStr "18-36 inches");
       ("use", PStr "creates vertical movement and height")]);
     ("delphiniums",
      [("characteristics", PStr "tall elegant columns, cottage garden feel");
       ("color_range", PStr "blue, purple, pink, white");
       ("height", PStr "24-48 inches");
       ("use", PStr "dramatic height, romantic spires")]);
     ("gladiolus",
      [("characteristics", PStr "sword-like stems, formal linear");
       ("color_range", PStr "full spectrum");
       ("height", PStr "24-60 inches");
       ("use", PStr "strong vertical lines, classical elegance")]);
     ("liatris",
      [("characteristics", PStr "fuzzy textured spikes, blooms top-down");
       ("color_range", PStr "purple, white");
       ("height", PStr "18-36 inches");
       ("use", PStr "unique texture, prairie wildflower feel")]);
     ("bells_of_ireland",
      [("characteristics", PStr "green architectural spires, shell-like calyxes");
       ("color_range", PStr "lime green");
       ("height", PStr "24-36 inches");
       ("use", PStr "fresh green accent, Irish symbolism")]);
     ("stock",
      [("characteristics", PStr "fragrant vertical clusters, cottage garden");
       ("color_range", PStr "white, pink, purple, lavender");
       ("height", PStr "18-30 inches");
       ("use", PStr "fragrance, soft spires, romantic")])]);
   ("filler",
    [("baby_breath",
      [("characteristics", PStr "cloud-like delicate, tiny white blooms");
       ("use", PStr "softens arrangements, creates airiness, classic filler");
       ("texture", PStr "fine, misty")]);
     ("waxflower",
      [("characteristics", PStr "tiny clustered blooms, long-lasting, waxy texture");
       ("color_range", PStr "white, pink, purple");
       ("use", PStr "elegant filler, wedding favorite")]);
     ("statice",
      [("characteristics", PStr "papery textured, long-lasting, dried feel");
       ("color_range", PStr "purple, white, yellow, pink");
       ("use", PStr "texture contrast, everlasting quality")]);
     ("solidago",
      [("characteristics", PStr "golden plumes, wild meadow feel");
       ("color_range", PStr "yellow, gold");
       ("use", PStr "fall arrangements, cheerful accent")]);
     ("alstroemeria",
      [("characteristics", PStr "small lily-like, long vase life, multiple blooms");
       ("color_range", PStr "full spectrum");
       ("use", PStr "versatile filler, budget-friendly")]);
     ("hypericum",
      [("characteristics", PStr "berry-like, unique texture");
       ("color_range", PStr "red, burgundy, white, green");
       ("use", PStr "adds interest, festive accent")])]);
   ("texture",
    [("thistle",
      [("characteristics", PStr "spiky, architectural, edgy");
       ("color_range", PStr "purple, blue, white");
       ("use", PStr "modern edge, texture contrast")]);
     ("protea",
      [("characteristics", PStr "bold sculptural, exotic");
       ("color_range", PStr "pink, coral, cream");
       ("use", PStr "focal drama, tropical luxury")]);
     ("scabiosa",
      [("characteristics", PStr "pincushion center, whimsical");
       ("color_range", PStr "deep burgundy, purple, white");
       ("use", PStr "unique texture, romantic gardens")]);
     ("ranunculus",
      [("characteristics", PStr "layered tissue-paper petals, romantic");
       ("color_range", PStr "full spectrum");
       ("use", PStr "texture richness, elegant beauty")])])].

Definition FOLIAGE_TYPES : list (string * list (string * dict)) :=
  [("structural",
    [("ferns",
      [("types", PList [PStr "leather fern"; PStr "tree fern"; PStr "sword fern"]);
       ("characteristics", PStr "feathery fronds, classical backdrop");
       ("use", PStr "traditional base, soft texture")]);
     ("eucalyptus",
      [("types", PList [PStr "seeded"; PStr "silver dollar"; PStr "baby blue"]);
       ("characteristics", PStr "silvery-blue leaves, aromatic, trendy");
       ("use", PStr "modern texture, color accent, fragrance")]);
     ("ruscus",
      [("characteristics", PStr "glossy pointed leaves, sturdy stems");
       ("use", PStr "foundation greenery, long-lasting")]);
     ("salal",
      [("characteristics", PStr "rounded glossy leaves, pacific northwest");
       ("use", PStr "backdrop greenery, filler")])]);
   ("accent",
    [("ivy",
      [("types", PList [PStr "English ivy"; PStr "variegated ivy"]);
       ("characteristics", PStr "trailing vines, romantic drape");
       ("use", PStr "softens edges, cascading effect")]);
     ("pittosporum",
      [("characteristics", PStr "small rounded leaves, delicate sprays");
       ("use", PStr "airy filler, soft texture")]);
     ("dusty_miller",
      [("characteristics", PStr "silvery fuzzy leaves, soft focus");
       ("use", PStr "color contrast, romantic softness")]);
     ("olive_branches",
      [("characteristics", PStr "silvery-green, Mediterranean, symbolic");
       ("use", PStr "rustic elegance, peace symbolism")])]);
   ("dramatic",
    [("monstera",
      [("characteristics", PStr "large split leaves, tropical bold");
       ("use", PStr "modern drama, tropical theme")]);
     ("palm",
      [("types", PList [PStr "fan palm"; PStr "phoenix palm"]);
       ("characteristics", PStr "architectural fronds, tropical");
       ("use", PStr "bold statement, event decor")]);
     ("aspidistra",
      [("characteristics", PStr "large blade leaves, manipulable");
       ("use", PStr "wraps, structural elements")])])].

Definition COLOR_PALETTES : list (string * dict) :=
  [("monochromatic",
    [("description", PStr "Single color in varying shades and tints");
     ("examples", PList [PStr "all white"; PStr "blush to deep pink"; PStr "cream to chocolate"]);
     ("effect", PStr "sophisticated, cohesive, elegant");
     ("occasions", PList [PStr "wedding"; PStr "formal"; PStr "minimalist"])]);
   ("analogous",
    [("description", PStr "Colors adjacent on color wheel");
     ("examples", PList [PStr "yellow-orange-red"; PStr "blue-purple-violet"; PStr "yellow-green-blue"]);
     ("effect", PStr "harmonious, natural, pleasing");
     ("occasions", PList [PStr "everyday"; PStr "celebration"; PStr "garden-style"])]);
   ("complementary",
    [("description", PStr "Opposite colors on wheel");
     ("examples", PList [PStr "purple-yellow"; PStr "blue-orange"; PStr "red-green"]);
     ("effect", PStr "vibrant, energetic, bold contrast");
     ("occasions", PList [PStr "celebration"; PStr "modern"; PStr "attention-grabbing"])]);
   ("triadic",
    [("description", PStr "Three colors evenly spaced on wheel");
     ("examples", PList [PStr "red-yellow-blue"; PStr "orange-green-purple"]);
     ("effect", PStr "vibrant, balanced, rich");
     ("occasions", PList [PStr "festive"; PStr "children"; PStr "joyful"])]);
   ("romantic",
    [("colors", PList [PStr "blush pink"; PStr "cream"; PStr "soft peach"; PStr "ivory"; PStr "champagne"]);
     ("effect", PStr "soft, dreamy, feminine, gentle");
     ("occasions", PList [PStr "wedding"; PStr "bridal shower"; PStr "anniversary"])]);
   ("elegant",
    [("colors", PList [PStr "deep burgundy"; PStr "cream"; PStr "forest green"; PStr "white"; PStr "gold accent"]);
     ("effect", PStr "sophisticated, refined, formal");
     ("occasions", PList [PStr "gala"; PStr "formal dinner"; PStr "luxury events"])]);
   ("vibrant",
    [("colors", PList [PStr "magenta"; PStr "orange"; PStr "hot pink"; PStr "yellow"; PStr "coral"]);
     ("effect", PStr "energetic, joyful, bold");
     ("occasions", PList [PStr "birthday"; PStr "tropical"; PStr "celebration"])]);
   ("spring",
    [("colors", PList [PStr "tulip yellow"; PStr "daffodil"; PStr "lavender"; PStr "soft pink"; PStr "fresh green"]);
     ("effect", PStr "fresh, renewal, optimistic");
     ("seasons", PList [PStr "spring"]);
     ("occasions", PList [PStr "easter"; PStr "spring wedding"])]);
   ("summer",
    [("colors", PList [PStr "bright yellow"; PStr "coral"; PStr "hot pink"; PStr "orange"; PStr "lime green"]);
     ("effect", PStr "warm, abundant, lively");
     ("seasons", PList [PStr "summer"]);
     ("occasions", PList [PStr "garden party"; PStr "outdoor celebration"])]);
   ("autumn",
    [("colors", PList [PStr "rust orange"; PStr "burgundy"; PStr "golden yellow"; PStr "bronze"; PStr "deep red"]);
     ("effect", PStr "warm, rich, harvest");
     ("seasons", PList [PStr "fall"]);
     ("occasions", PList [PStr "thanksgiving"; PStr "fall wedding"])]);
   ("winter",
    [("colors", PList [PStr "deep red"; PStr "white"; PStr "evergreen"; PStr "silver"; PStr "navy"]);
     ("effect", PStr "crisp, festive, elegant");
     ("seasons", PList [PStr "winter"]);
     ("occasions", PList [PStr "christmas"; PStr "winter formal"])])].

Definition STRUCTURAL_TECHNIQUES : list (string * list (string * dict)) :=
  [("balance",
    [("symmetrical_radial",
      [("description", PStr "Equal visual weight radiating from center");
       ("arrangements", PList [PStr "dome"; PStr "round"; PStr "triangular"]);
       ("effect", PStr "formal, stable, traditional")]);
     ("symmetrical_bilateral",
      [("description", PStr "Mirror image left and right");
       ("arrangements", PList [PStr "triangular"; PStr "vertical"; PStr "fan"]);
       ("effect", PStr "formal, classical, orderly")]);
     ("asymmetrical",
      [("description", PStr "Unequal but balanced visual weight");
       ("arrangements", PList [PStr "crescent"; PStr "hogarth"; PStr "ikebana"]);
       ("effect", PStr "dynamic, natural, contemporary")])]);
   ("proportion",
    [("golden_ratio",
      [("description", PStr "1.618:1 ratio between elements");
       ("application", PStr "height to width, focal to filler, container to arrangement")]);
     ("rule_of_thirds",
      [("description", PStr "Divide into thirds horizontally and vertically");
       ("application", PStr "place focal points at intersections")]);
     ("height_to_container",
      [("traditional", PStr "1.5 to 2 times container height");
       ("modern", PStr "can break rules for dramatic effect");
       ("horizontal", PStr "container height to arrangement width 1:3")])]);
   ("focal_points",
    [("single_dominant",
      [("description", PStr "One clear center of interest");
       ("technique", PStr "largest bloom at center or asymmetric position");
       ("effect", PStr "clear hierarchy, classical")]);
     ("multiple_secondary",
      [("description", PStr "Primary focal with supporting accents");
       ("technique", PStr "triangle of focal flowers");
       ("effect", PStr "visual journey, sophisticated")]);
     ("distributed",
      [("description", PStr "Interest spread throughout");
       ("technique", PStr "no single dominant element");
       ("effect", PStr "garden-style, natural")])]);
   ("movement",
    [("vertical_lift",
      [("description", PStr "Upward reaching energy");
       ("technique", PStr "line flowers, tall stems, upright forms");
       ("effect", PStr "aspiration, celebration, growth")]);
     ("horizontal_sweep",
      [("description", PStr "Side-to-side flow");
       ("technique", PStr "trailing elements, lateral branches");
       ("effect", PStr "calm, peaceful, grounding")]);
     ("spiral_rotation",
      [("description", PStr "Circular flow around center");
       ("technique", PStr "stems arranged in spiral, flowers face different directions");
       ("effect", PStr "dynamic, natural, garden-style")]);
     ("cascade_fall",
      [("description", PStr "Downward waterfall motion");
       ("technique", PStr "trailing ivy, hanging amaranthus, weighted bottom");
       ("effect", PStr "drama, elegance, gravity")]);
     ("radiation",
      [("description", PStr "Outward burst from center");
       ("technique", PStr "stems angle out from central point");
       ("effect", PStr "energy, explosion, celebration")])]);
   ("texture",
    [("smooth_rough_contrast",
      [("description", PStr "Juxtapose sleek and textured elements");
       ("examples", PStr "glossy calla lilies with spiky thistle");
       ("effect", PStr "visual interest, sophisticated")]);
     ("delicate_bold_mix",
      [("description", PStr "Combine fine and substantial forms");
       ("examples", PStr "baby's breath with large roses");
       ("effect", PStr "balance, dimension")]);
     ("monochromatic_texture",
      [("description", PStr "Same color, varied textures");
       ("examples", PStr "white roses, ranunculus, stock, baby's breath");
       ("effect", PStr "subtle sophistication, cohesive")])]);
   ("density",
    [("packed_abundant",
      [("description", PStr "Full mass, minimal negative space");
       ("style", PStr "European garden, romantic");
       ("effect", PStr "lush, generous, romantic")]);
     ("airy_spacious",
      [("description", PStr "Minimal stems, maximum negative space");
       ("style", PStr "Ikebana, contemporary minimalist");
       ("effect", PStr "elegant, modern, sculptural")]);
     ("clustered_with_voids",
      [("description", PStr "Dense groupings separated by open space");
       ("style", PStr "Contemporary, structural");
       ("effect", PStr "drama, graphic, intentional")])])].

Definition OCCASIONS : list (string * list (string * dict)) :=
  [("wedding",
    [("ceremony",
      [("arrangements", PList [PStr "altar arrangements"; PStr "aisle markers"; PStr "chuppah flowers"]);
       ("styles", PList [PStr "romantic"; PStr "elegant"; PStr "dramatic"]);
       ("scale", PStr "large, architectural")]);
     ("reception",
      [("arrangements", PList [PStr "centerpieces"; PStr "cake flowers"; PStr "sweetheart table"]);
       ("styles", PList [PStr "romantic"; PStr "garden-style"; PStr "elegant"]);
       ("scale", PStr "medium, conversation-friendly")]);
     ("bridal_party",
      [("arrangements", PList [PStr "bouquets"; PStr "boutonnieres"; PStr "corsages"]);
       ("styles", PList [PStr "cohesive with ceremony"; PStr "hand-tied"; PStr "wearable"]);
       ("scale", PStr "personal, scaled to person")])]);
   ("funeral",
    [("standing_spray",
      [("description", PStr "Easel-mounted vertical arrangement");
       ("characteristics", PStr "formal, respectful, traditional symbolism")]);
     ("casket_spray",
      [("description", PStr "Long horizontal arrangement for casket");
       ("characteristics", PStr "full coverage, masculine or feminine styling")]);
     ("wreath",
      [("description", PStr "Circular form symbolizing eternal life");
       ("characteristics", PStr "traditional, symmetrical, symbolic")]);
     ("sympathy_basket",
      [("description", PStr "Comforting arrangement for home");
       ("characteristics", PStr "thoughtful, lasting, garden-style")])]);
   ("celebration",
    [("birthday",
      [("characteristics", PStr "joyful, colorful, personal to recipient");
       ("styles", PList [PStr "vibrant"; PStr "fun"; PStr "favorite colors"])]);
     ("anniversary",
      [("characteristics", PStr "romantic, meaningful, often roses");
       ("styles", PList [PStr "elegant"; PStr "romantic"; PStr "traditional flowers"])]);
     ("congratulations",
      [("characteristics", PStr "bright, uplifting, celebratory");
       ("styles", PList [PStr "vibrant"; PStr "contemporary"; PStr "bold"])]);
     ("get_well",
      [("characteristics", PStr "cheerful, uplifting, fragrance-free");
       ("styles", PList [PStr "bright colors"; PStr "garden-style"; PStr "optimistic"])])]);
   ("everyday",
    [("home_decor",
      [("characteristics", PStr "seasonally appropriate, complements interior");
       ("styles", PList [PStr "garden-style"; PStr "minimalist"; PStr "whatever brings joy"])]);
     ("hostess_gift",
      [("characteristics", PStr "thoughtful, pre-arranged, ready to display");
       ("styles", PList [PStr "elegant"; PStr "seasonal"; PStr "generous but not overwhelming"])])])].

Definition CULTURAL_TRADITIONS : list (string * dict) :=
  [("japanese_ikebana",
    [("philosophy", PStr "minimalism, asymmetry, nature appreciation, spiritual practice");
     ("principles", PList [PStr "heaven-earth-man triangle"; PStr "negative space as important as flowers"; PStr "seasonal awareness"]);
     ("key_concepts", PDict [("ma", PStr "negative space, pause, interval");
       ("wabi_sabi", PStr "imperfect beauty, transience");
       ("shin_soe_hikae", PStr "primary, secondary, tertiary elements")])]);
   ("european_garden",
    [("philosophy", PStr "abundance, romance, natural beauty");
     ("principles", PList [PStr "lush fullness"; PStr "color harmony"; PStr "garden-fresh aesthetic"]);
     ("characteristics", PStr "loose, organic, just-picked feel, varied textures")]);
   ("victorian",
    [("philosophy", PStr "language of flowers, tight structure, formal beauty");
     ("principles", PList [PStr "symbolic meanings"; PStr "tight massing"; PStr "structured form"]);
     ("characteristics", PStr "dense, formal, symbolic, tussie-mussie style")]);
   ("contemporary_western",
    [("philosophy", PStr "artistic expression, breaking tradition, individual style");
     ("principles", PList [PStr "rule-breaking"; PStr "artistic interpretation"; PStr "personal expression"]);
     ("characteristics", PStr "varied widely, structural, unexpected materials")])].

(** A two-level table seen as one dictionary value. *)
Definition table_dict (t : list (string * dict)) : dict :=
  map (fun kv => (fst kv, PDict (snd kv))) t.

Definition table_val (t : list (string * dict)) : pyval := PDict (table_dict t).

(** ** Operations on arbitrary values *)

(** [v[k]] for a string key: only a dictionary accepts it. *)
Definition subscript (v : pyval) (k : string) : res pyval :=
  match v with
  | PDict d => Dict.getitem d k
  | _ => Raise TypeError
  end.

(** [v.get(k, default)]: a method of dictionaries only. *)
Definition get_method (v : pyval) (k : string) (default : pyval) : res pyval :=
  match v with
  | PDict d => Ok (match Dict.get d k with Some x => x | None => default end)
  | _ => Raise AttributeError
  end.

Fixpoint chars (s : string) : list pyval :=
  match s with
  | EmptyString => []
  | String c t => PStr (String c "") :: chars t
  end.

(** The items [for x in v] visits. *)
Definition iterate (v : pyval) : res (list pyval) :=
  match v with
  | PList l => Ok l
  | PDict d => Ok (map PStr (Dict.keys d))
  | PStr s => Ok (chars s)
  | _ => Raise TypeError
  end.

(** [k in v] for a string [k]. *)
Definition contains_str (k : string) (v : pyval) : res bool :=
  match v with
  | PDict d => Ok (Dict.mem k d)
  | PList l =>
      Ok (existsb (fun x => match x with PStr s => String.eqb s k | _ => false end) l)
  | PStr s => Ok (Str.contains k s)
  | _ => Raise TypeError
  end.

(** The receiver of a [str] method. *)
Definition str_method (v : pyval) : res string :=
  match v with
  | PStr s => Ok s
  | _ => Raise AttributeError
  end.

(** [sep.join(v)]: every item must be a string. *)
Definition join_val (sep : string) (v : pyval) : res string :=
  items <- iterate v ;;
  strs <- mapM (fun x => match x with PStr s => Ok s | _ => Raise TypeError end) items ;;
  Ok (Str.join sep strs).

(** [l.append(x)] on a list held in a local variable. *)
Definition append {A : Type} (l : list A) (x : A) : list A := (l ++ [x])%list.

(** [x.append(item)] on a value. *)
Definition append_method (x item : pyval) : res pyval :=
  match x with
  | PList l => Ok (PList (append l item))
  | _ => Raise AttributeError
  end.

(** [d[k].append(item)] on a dictionary of lists held in a local variable. *)
Definition append_at (d : dict) (k : string) (item : pyval) : res dict :=
  x <- Dict.getitem d k ;;
  x' <- append_method x item ;;
  Ok (Dict.set d k x').

(** A [for] loop over a list, threading the variables it assigns. *)
Fixpoint for_each {A S : Type} (l : list A) (s : S) (body : S -> A -> res S)
  : res S :=
  match l with
  | [] => Ok s
  | a :: t => s' <- body s a ;; for_each t s' body
  end.

(** ** Layer 2: the detectors *)

(** [{"category": c, "type": t, **ARRANGEMENT_STYLES[c][t]}]. *)
Definition style_record (category type : string) : res dict :=
  styles <- Dict.getitem ARRANGEMENT_STYLES category ;;
  entry <- Dict.getitem styles type ;;
  Ok (Dict.spread [("category", PStr category); ("type", PStr type)] entry).

(** The loop over [ARRANGEMENT_STYLES.items()] that looks the preference up;
    [None] when the loop ends without returning. *)
Fixpoint style_by_preference (table : list (string * list (string * dict)))
    (preference : string) : res (option dict) :=
  match table with
  | [] => Ok None
  | (category, styles) :: rest =>
      if Dict.mem preference styles then
        entry <- Dict.getitem styles preference ;;
        Ok (Some (Dict.spread
                    [("category", PStr category); ("type", PStr preference)]
                    entry))
      else style_by_preference rest preference
  end.

Definition detect_arrangement_style (intent preference : string) : res dict :=
  if Str.contains "ikebana" intent || Str.contains "japanese" intent then
    if Str.contains "moribana" intent then style_record "ikebana" "moribana"
    else if Str.contains "nageire" intent then style_record "ikebana" "nageire"
    else style_record "ikebana" "nageire"
  else if Str.contains "cascade" intent || Str.contains "waterfall" intent
          || Str.contains "trailing" intent then
    style_record "western_classical" "cascade"
  else if Str.contains "dome" intent || Str.contains "round" intent
          || Str.contains "centerpiece" intent then
    style_record "western_classical" "dome"
  else if Str.contains "minimal" intent || Str.contains "modern" intent
          || Str.contains "contemporary" intent then
    style_record "contemporary" "minimalist"
  else if Str.contains "garden" intent || Str.contains "loose" intent
          || Str.contains "natural" intent || Str.contains "romantic" intent then
    style_record "contemporary" "garden_style"
  else if Str.contains "crescent" intent || Str.contains "curve" intent then
    style_record "western_classical" "crescent"
  else
    found <- (if negb (String.eqb preference "any")
              then style_by_preference ARRANGEMENT_STYLES preference
              else Ok None) ;;
    match found with
    | Some style => Ok style
    | None => style_record "contemporary" "garden_style"
    end.

(** [FLOWERS_BY_ROLE[role][name]]. *)
Definition flower (role name : string) : res dict :=
  flowers <- Dict.getitem FLOWERS_BY_ROLE role ;;
  Dict.getitem flowers name.

Definition flower_record (name role : string) (flower_data : dict) : pyval :=
  PDict (Dict.spread [("name", PStr name); ("role", PStr role)] flower_data).

Definition no_flowers : dict :=
  [("focal", PList []); ("line", PList []); ("filler", PList []);
   ("texture", PList [])].

Definition suggest_flowers_by_occasion (occasion intent : string) : res dict :=
  let suggestions := no_flowers in
  if Str.contains "wedding" occasion || Str.contains "wedding" intent
     || Str.contains "bridal" intent then
    roses <- flower "focal" "roses" ;;
    suggestions <- append_at suggestions "focal"
                     (flower_record "garden roses" "focal" roses) ;;
    peonies <- flower "focal" "peonies" ;;
    suggestions <- append_at suggestions "focal"
                     (flower_record "peonies" "focal" peonies) ;;
    baby_breath <- flower "filler" "baby_breath" ;;
    suggestions <- append_at suggestions "filler"
                     (flower_record "baby breath" "filler" baby_breath) ;;
    Ok suggestions
  else if Str.contains "romantic" intent || Str.contains "anniversary" intent then
    roses <- flower "focal" "roses" ;;
    suggestions <- append_at suggestions "focal"
                     (flower_record "roses" "focal" roses) ;;
    ranunculus <- flower "texture" "ranunculus" ;;
    suggestions <- append_at suggestions "texture"
                     (flower_record "ranunculus" "texture" ranunculus) ;;
    Ok suggestions
  else if Str.contains "vibrant" intent || Str.contains "celebration" intent
          || Str.contains "birthday" intent then
    sunflowers <- flower "focal" "sunflowers" ;;
    suggestions <- append_at suggestions "focal"
                     (flower_record "sunflowers" "focal" sunflowers) ;;
    dahlias <- flower "focal" "dahlias" ;;
    suggestions <- append_at suggestions "focal"
                     (flower_record "dahlias" "focal" dahlias) ;;
    Ok suggestions
  else if Str.contains "elegant" intent || Str.contains "formal" intent then
    orchids <- flower "focal" "orchids" ;;
    suggestions <- append_at suggestions "focal"
                     (flower_record "orchids" "focal" orchids) ;;
    lilies <- flower "focal" "lilies" ;;
    suggestions <- append_at suggestions "focal"
                     (flower_record "lilies" "focal" lilies) ;;
    Ok suggestions
  else
    roses <- flower "focal" "roses" ;;
    suggestions <- append_at suggestions "focal"
                     (flower_record "roses" "focal" roses) ;;
    waxflower <- flower "filler" "waxflower" ;;
    suggestions <- append_at suggestions "filler"
                     (flower_record "waxflower" "filler" waxflower) ;;
    Ok suggestions.

(** The inner loop of the explicit-mention pass, over one role's flowers. *)
Definition scan_role (intent role : string) (flowers : list (string * dict))
    (detected : dict) : res dict :=
  for_each flowers detected (fun detected entry =>
    let flower_name := fst entry in
    let flower_data := snd entry in
    if Str.contains (Str.replace "_" " " flower_name) intent then
      append_at detected role
        (flower_record (Str.replace "_" " " flower_name) role flower_data)
    else Ok detected).

(** The explicit-mention pass over [FLOWERS_BY_ROLE.items()]. *)
Definition scan_flowers (intent : string)
    (table : list (string * list (string * dict))) (detected : dict) : res dict :=
  for_each table detected (fun detected entry =>
    scan_role intent (fst entry) (snd entry) detected).

Definition detect_flowers (intent occasion : string) : res dict :=
  let detected := no_flowers in
  detected <- scan_flowers intent FLOWERS_BY_ROLE detected ;;
  if negb (existsb truthy (Dict.values detected)) then
    suggest_flowers_by_occasion occasion intent
  else Ok detected.

(** [FOLIAGE_TYPES[category][name]]. *)
Definition foliage_entry (category name : string) : res dict :=
  types <- Dict.getitem FOLIAGE_TYPES category ;;
  Dict.getitem types name.

Definition foliage_record (name category : string) (foliage_data : dict) : pyval :=
  PDict (Dict.spread [("name", PStr name); ("category", PStr category)] foliage_data).

Definition scan_foliage (intent : string)
    (table : list (string * list (string * dict))) (foliage : list pyval)
  : res (list pyval) :=
  for_each table foliage (fun foliage entry =>
    let category := fst entry in
    for_each (snd entry) foliage (fun foliage entry =>
      let foliage_name := fst entry in
      let foliage_data := snd entry in
      if Str.contains (Str.replace "_" " " foliage_name) intent then
        Ok (append foliage
              (foliage_record (Str.replace "_" " " foliage_name)
                 category foliage_data))
      else Ok foliage)).

Definition detect_foliage (intent : string) (style : dict) : res (list pyval) :=
  let foliage := [] in
  foliage <- scan_foliage intent FOLIAGE_TYPES foliage ;;
  match foliage with
  | [] =>
      if eq_str (Dict.get style "category") "contemporary"
         && eq_str (Dict.get style "type") "minimalist" then
        eucalyptus <- foliage_entry "structural" "eucalyptus" ;;
        Ok [foliage_record "eucalyptus" "structural" eucalyptus]
      else if eq_str (Dict.get style "category") "contemporary"
              && eq_str (Dict.get style "type") "garden_style" then
        eucalyptus <- foliage_entry "structural" "eucalyptus" ;;
        ivy <- foliage_entry "accent" "ivy" ;;
        Ok [foliage_record "eucalyptus" "structural" eucalyptus;
            foliage_record "ivy" "accent" ivy]
      else if eq_str (Dict.get style "category") "ikebana" then
        aspidistra <- foliage_entry "dramatic" "aspidistra" ;;
        Ok [foliage_record "aspidistra" "dramatic" aspidistra]
      else
        ruscus <- foliage_entry "structural" "ruscus" ;;
        Ok [foliage_record "ruscus" "structural" ruscus]
  | _ :: _ => Ok foliage
  end.

(** [{"palette": name, **COLOR_PALETTES[name]}]. *)
Definition palette_record (name : string) : res dict :=
  palette_data <- Dict.getitem COLOR_PALETTES name ;;
  Ok (Dict.spread [("palette", PStr name)] palette_data).

(** The loop over [COLOR_PALETTES.items()]; [None] when it ends without
    returning. *)
Fixpoint palette_by_mention (table : list (string * dict)) (intent_lower : string)
  : option dict :=
  match table with
  | [] => None
  | (palette_name, palette_data) :: rest =>
      if Str.contains palette_name intent_lower then
        Some (Dict.spread [("palette", PStr palette_name)] palette_data)
      else palette_by_mention rest intent_lower
  end.

Definition detect_color_scheme (intent color_preference occasion : string)
  : res dict :=
  let intent_lower := Str.lower intent in
  match palette_by_mention COLOR_PALETTES intent_lower with
  | Some palette => Ok palette
  | None =>
      if Str.contains "spring" intent_lower then palette_record "spring"
      else if Str.contains "summer" intent_lower then palette_record "summer"
      else if Str.contains "autumn" intent_lower
              || Str.contains "fall" intent_lower then palette_record "autumn"
      else if Str.contains "winter" intent_lower then palette_record "winter"
      else if Str.contains "romantic" intent_lower
              || Str.contains "wedding" intent_lower then palette_record "romantic"
      else if Str.contains "elegant" intent_lower
              || Str.contains "formal" intent_lower then palette_record "elegant"
      else if Str.contains "vibrant" intent_lower
              || Str.contains "bold" intent_lower then palette_record "vibrant"
      else if Dict.mem color_preference COLOR_PALETTES then
        palette_record color_preference
      else palette_record "analogous"
  end.

(** ** Structure, occasion and cultural context *)

(** [STRUCTURAL_TECHNIQUES[family][name]]. *)
Definition technique (family name : string) : res pyval :=
  techniques <- Dict.getitem STRUCTURAL_TECHNIQUES family ;;
  entry <- Dict.getitem techniques name ;;
  Ok (PDict entry).

Definition map_structure (style colors : dict) : res dict :=
  let structure := [] in
  let balance_type :=
    match Dict.get style "balance" with
    | Some v => v
    | None => PStr "asymmetrical"
    end in
  balance <- (if eq_str (Some balance_type) "symmetrical" then
                technique "balance" "symmetrical_radial"
              else if eq_str (Some balance_type) "radial symmetrical" then
                technique "balance" "symmetrical_radial"
              else technique "balance" "asymmetrical") ;;
  let structure := Dict.set structure "balance" balance in
  movement <- (if eq_str (Dict.get style "type") "cascade" then
                 technique "movement" "cascade_fall"
               else if eq_str (Dict.get style "type") "vertical" then
                 technique "movement" "vertical_lift"
               else if eq_str (Dict.get style "type") "horizontal" then
                 technique "movement" "horizontal_sweep"
               else technique "movement" "spiral_rotation") ;;
  let structure := Dict.set structure "movement" movement in
  proportion <- technique "proportion" "golden_ratio" ;;
  let structure := Dict.set structure "proportion" proportion in
  focal <- (if eq_str (Dict.get style "category") "contemporary"
               && eq_str (Dict.get style "type") "minimalist" then
              technique "focal_points" "single_dominant"
            else technique "focal_points" "multiple_secondary") ;;
  let structure := Dict.set structure "focal" focal in
  density <- (if eq_str (Dict.get style "category") "contemporary"
                 && eq_str (Dict.get style "type") "minimalist" then
                technique "density" "airy_spacious"
              else if eq_str (Dict.get style "category") "contemporary"
                      && eq_str (Dict.get style "type") "garden_style" then
                technique "density" "packed_abundant"
              else technique "density" "clustered_with_voids") ;;
  let structure := Dict.set structure "density" density in
  texture <- technique "texture" "smooth_rough_contrast" ;;
  let structure := Dict.set structure "texture" texture in
  Ok structure.

(** The loop of [map_occasion] over [OCCASIONS.items()]; [None] when it ends
    without returning. *)
Fixpoint occasion_by_keyword (table : list (string * list (string * dict)))
    (occasion : string) : option dict :=
  match table with
  | [] => None
  | (occ_name, occ_data) :: rest =>
      if Str.contains occasion (Str.lower (py_str (table_val occ_data))) then
        Some [(occ_name, table_val occ_data)]
      else occasion_by_keyword rest occasion
  end.

Definition map_occasion (occasion : string) (style : dict) : res dict :=
  if Dict.mem occasion OCCASIONS then
    occ_data <- Dict.getitem OCCASIONS occasion ;;
    Ok (table_dict occ_data)
  else
    match occasion_by_keyword OCCASIONS occasion with
    | Some found => Ok found
    | None =>
        Ok [("occasion", PStr "general");
            ("notes", PStr "versatile arrangement suitable for various contexts")]
    end.

Definition get_cultural_context (style : dict) : res dict :=
  if eq_str (Dict.get style "category") "ikebana" then
    Dict.getitem CULTURAL_TRADITIONS "japanese_ikebana"
  else if eq_str (Dict.get style "category") "contemporary"
          && eq_str (Dict.get style "type") "garden_style" then
    Dict.getitem CULTURAL_TRADITIONS "european_garden"
  else if eq_str (Dict.get style "category") "contemporary" then
    Dict.getitem CULTURAL_TRADITIONS "contemporary_western"
  else Dict.getitem CULTURAL_TRADITIONS "european_garden".

Definition map_floral_taxonomy
    (user_intent style_preference occasion color_scheme : string) : res dict :=
  let intent_lower := Str.lower user_intent in
  detected_style <- detect_arrangement_style intent_lower style_preference ;;
  detected_flowers <- detect_flowers intent_lower occasion ;;
  detected_foliage <- detect_foliage intent_lower detected_style ;;
  detected_colors <- detect_color_scheme intent_lower color_scheme occasion ;;
  structure <- map_structure detected_style detected_colors ;;
  occasion_specs <- map_occasion occasion detected_style ;;
  cultural_context <- get_cultural_context detected_style ;;
  Ok [("user_intent", PStr user_intent);
      ("style", PDict detected_style);
      ("flowers", PDict detected_flowers);
      ("foliage", PList detected_foliage);
      ("colors", PDict detected_colors);
      ("structure", PDict structure);
      ("occasion", PDict occasion_specs);
      ("cultural_context", PDict cultural_context)].

(** ** The prompt formatter *)

(** The comprehension [[f["name"] for f in v]]. *)
Definition names_of (v : pyval) : res (list pyval) :=
  items <- iterate v ;;
  mapM (fun f => subscript f "name") items.

(** The names under one role: [[f["name"] for f in flowers.get(role, [])]]. *)
Definition role_names (flowers : pyval) (role : string) : res (list pyval) :=
  listed <- get_method flowers role (PList []) ;;
  names_of listed.

(** [if names: parts.append(f"{before}{', '.join(names)}{after}")]. *)
Definition append_clause (parts : list string) (before : string)
    (names : list pyval) (after : string) : res (list string) :=
  match names with
  | [] => Ok parts
  | _ :: _ =>
      joined <- join_val ", " (PList names) ;;
      Ok (append parts (before ++ joined ++ after))
  end.

(** The list [parts] that [format_prompt_enhancement] builds. *)
Definition prompt_parts (mapped : dict) : res (list string) :=
  style <- Dict.getitem mapped "style" ;;
  flowers <- Dict.getitem mapped "flowers" ;;
  foliage <- Dict.getitem mapped "foliage" ;;
  colors <- Dict.getitem mapped "colors" ;;
  structure <- Dict.getitem mapped "structure" ;;
  let parts := [] in
  style_type <- subscript style "type" ;;
  style_type <- str_method style_type ;;
  let parts :=
    append parts
      (Str.title (Str.replace "_" " " style_type) ++ " floral arrangement") in
  container <- subscript style "container" ;;
  let parts := append parts ("in " ++ py_str container) in
  focal <- get_method flowers "focal" (PList []) ;;
  focal_flowers <- names_of focal ;;
  parts <- append_clause parts "featuring " focal_flowers " as focal flowers" ;;
  line <- get_method flowers "line" (PList []) ;;
  line_flowers <- names_of line ;;
  parts <- append_clause parts "with " line_flowers " creating vertical lines" ;;
  filler <- get_method flowers "filler" (PList []) ;;
  filler_flowers <- names_of filler ;;
  parts <- append_clause parts "filled with " filler_flowers "" ;;
  foliage_names <- names_of foliage ;;
  parts <- append_clause parts "accented with " foliage_names " foliage" ;;
  has_colors <- contains_str "colors" colors ;;
  parts <- (if has_colors : bool then
              color_list <- subscript colors "colors" ;;
              joined <- join_val ", " color_list ;;
              Ok (append parts ("in " ++ joined ++ " palette"))
            else Ok parts) ;;
  balance <- subscript structure "balance" ;;
  balance_description <- subscript balance "description" ;;
  let parts := append parts ("using " ++ py_str balance_description) in
  movement <- subscript structure "movement" ;;
  movement_description <- subscript movement "description" ;;
  let parts := append parts ("with " ++ py_str movement_description) in
  characteristics <-
    get_method style "characteristics" (PStr "beautiful composition") ;;
  let parts := append parts ("creating " ++ py_str characteristics) in
  Ok parts.

Definition format_prompt_enhancement (mapped : dict) : res string :=
  parts <- prompt_parts mapped ;;
  Ok (Str.join ", " parts).

(** ** The workflow builder *)









(** ** The tool surface *)




Definition synthesis_instruction_text : string :=
  "Use the structured data above to synthesize a vivid, cohesive image generation prompt. "
  ++ "Weave together the style characteristics, specific flowers, foliage, color palette, "
  ++ "and structural techniques into flowing descriptive prose. Emphasize the sensory qualities "
  ++ "(texture, color, form, movement) and the overall aesthetic effect. Keep the prompt "
  ++ "60-100 words, suitable for Flux, SDXL, or Midjourney.".

Definition enhance_floral_prompt
    (user_intent style_preference occasion color_scheme : string) : res dict :=
  mapped <- map_floral_taxonomy user_intent style_preference occasion
              color_scheme ;;
  enhanced_prompt <- format_prompt_enhancement mapped ;;
  style <- Dict.getitem mapped "style" ;;
  flowers <- Dict.getitem mapped "flowers" ;;
  foliage <- Dict.getitem mapped "foliage" ;;
  colors <- Dict.getitem mapped "colors" ;;
  structure <- Dict.getitem mapped "structure" ;;
  occasion_specs <- Dict.getitem mapped "occasion" ;;
  cultural_context <- Dict.getitem mapped "cultural_context" ;;
  Ok [("user_intent", PStr user_intent);
      ("style", style);
      ("flowers", flowers);
      ("foliage", foliage);
      ("colors", colors);
      ("structure", structure);
      ("occasion", occasion_specs);
      ("cultural_context", cultural_context);
      ("enhanced_prompt", PStr enhanced_prompt);
      ("synthesis_instruction", PStr synthesis_instruction_text)].

Definition suggest_flowers_for_occasion (occasion : string) : res dict :=
  if Dict.mem occasion OCCASIONS then
    recommendations <- Dict.getitem OCCASIONS occasion ;;
    Ok [("occasion", PStr occasion);
        ("recommendations", table_val recommendations)]
  else
    Ok [("occasion", PStr occasion);
        ("error", PStr ("Occasion '" ++ occasion ++ "' not found"));
        ("available_occasions", PList (map PStr (Dict.keys OCCASIONS)))].

(** ** The rules as the specification words them

    Each detector is described as an ordered list of rules, a rule being a
    list of trigger phrases with what it selects; the first rule one of whose
    phrases occurs in the text wins. *)

Module Spec.

Definition mentions (triggers : list string) (text : string) : bool :=
  existsb (fun phrase => Str.contains phrase text) triggers.

Fixpoint first_rule {T : Type} (rules : list (list string * T)) (text : string)
  : option T :=
  match rules with
  | [] => None
  | (triggers, target) :: rest =>
      if mentions triggers text then Some target else first_rule rest text
  end.

(** The style rules with the trigger phrases the specification lists, each
    bound to a (category, type) pair. *)
Definition stated_style_rules : list (list string * (string * string)) :=
  [(["ikebana"; "japanese"], ("ikebana", "nageire"));
   (["cascade"; "waterfall"], ("western_classical", "cascade"));
   (["dome"; "round"; "centerpiece"], ("western_classical", "dome"));
   (["minimal"; "modern"; "contemporary"], ("contemporary", "minimalist"));
   (["garden"; "loose"; "natural"; "romantic"], ("contemporary", "garden_style"));
   (["crescent"; "curve"], ("western_classical", "crescent"))].

(** The style rules of the code: "trailing" also triggers the cascade rule,
    and the ikebana rule selects moribana when the text names it. *)
Definition style_rules : list (list string * (string -> string * string)) :=
  [(["ikebana"; "japanese"],
    fun text => ("ikebana",
                 if Str.contains "moribana" text then "moribana" else "nageire"));
   (["cascade"; "waterfall"; "trailing"],
    fun _ => ("western_classical", "cascade"));
   (["dome"; "round"; "centerpiece"], fun _ => ("western_classical", "dome"));
   (["minimal"; "modern"; "contemporary"],
    fun _ => ("contemporary", "minimalist"));
   (["garden"; "loose"; "natural"; "romantic"],
    fun _ => ("contemporary", "garden_style"));
   (["crescent"; "curve"], fun _ => ("western_classical", "crescent"))].

(** The first category of the style table that has a style of this type. *)
Fixpoint category_of_type (table : list (string * list (string * dict)))
    (type : string) : option string :=
  match table with
  | [] => None
  | (category, styles) :: rest =>
      if Dict.mem type styles then Some category
      else category_of_type rest type
  end.

Definition known_style_type (type : string) : bool :=
  match category_of_type ARRANGEMENT_STYLES type with
  | Some _ => true
  | None => false
  end.

Definition choose_style (text preference : string) : string * string :=
  match first_rule style_rules text with
  | Some target => target text
  | None =>
      match (if String.eqb preference "any" then None
             else category_of_type ARRANGEMENT_STYLES preference) with
      | Some category => (category, preference)
      | None => ("contemporary", "garden_style")
      end
  end.

(** The palette rules: (1) a palette name, in table order, (2) a season
    keyword, (3) a mood keyword. *)
Definition palette_rules : list (list string * string) :=
  map (fun name => ([name], name)) (Dict.keys COLOR_PALETTES)
  ++ [(["spring"], "spring"); (["summer"], "summer");
      (["autumn"; "fall"], "autumn"); (["winter"], "winter")]
  ++ [(["romantic"; "wedding"], "romantic"); (["elegant"; "formal"], "elegant");
      (["vibrant"; "bold"], "vibrant")].

(** Rules (1) to (5): the first satisfied palette rule on the lower-cased
    intent, else the preference when it names a palette, else analogous. *)
Definition choose_palette (intent color_preference : string) : string :=
  match first_rule palette_rules (Str.lower intent) with
  | Some name => name
  | None =>
      if Dict.mem color_preference COLOR_PALETTES then color_preference
      else "analogous"
  end.

End Spec.

(** * Properties *)

(** ** Strings and dictionaries *)

Lemma prefix_app (p s : string) :
  Str.prefix p s = true <-> exists rest, s = p ++ rest.
Proof.
  revert s; induction p as [|a p IH]; intros s; simpl.
  - split; [intros _; now exists s | reflexivity].
  - destruct s as [|b s].
    + split; [discriminate | intros [rest H]; discriminate].
    + rewrite andb_true_iff, Ascii.eqb_eq, IH. split.
      * intros [-> [rest ->]]. now exists rest.
      * intros [rest H]. injection H as -> ->. split; [reflexivity | now exists rest].
Qed.

(** [contains] is the substring test. *)
Lemma contains_substring (needle hay : string) :
  Str.contains needle hay = true <->
  exists before after, hay = before ++ needle ++ after.
Proof.
  induction hay as [|c hay IH].
  - simpl. rewrite orb_false_r, prefix_app. split.
    + intros [rest H]. now exists "", rest.
    + intros [before [after H]]. destruct before; [now exists after | discriminate].
  - cbn [Str.contains]. rewrite orb_true_iff, prefix_app, IH. split.
    + intros [[rest H] | [before [after H]]].
      * now exists "", rest.
      * exists (String c before), after. simpl. now rewrite H.
    + intros [before [after H]]. destruct before as [|b before].
      * left. now exists after.
      * right. simpl in H. injection H as _ H. now exists before, after.
Qed.

Lemma contains_empty (hay : string) : Str.contains "" hay = true.
Proof. destruct hay; reflexivity. Qed.

Lemma mem_getitem {V : Type} (d : list (string * V)) (k : string) :
  Dict.mem k d = true -> exists v, Dict.get d k = Some v /\ Dict.getitem d k = Ok v.
Proof.
  unfold Dict.mem, Dict.getitem. destruct (Dict.get d k) as [v|]; [|discriminate].
  intros _. now exists v.
Qed.

(** ** Style detection *)

Ltac case_eqb x :=
  repeat match goal with
  | |- context [String.eqb ?a x] =>
      let E := fresh "E" in
      destruct (String.eqb a x) eqn:E;
      [apply String.eqb_eq in E; subst x; try reflexivity |]
  end.

Ltac case_contains :=
  repeat match goal with
  | |- context [Str.contains ?n ?h] =>
      destruct (Str.contains n h); cbn [orb]; try reflexivity
  end.

(** The preference loop returns the record of the preferred type in the first
    category that has it. *)
Lemma style_by_preference_category (preference : string) :
  style_by_preference ARRANGEMENT_STYLES preference =
  match Spec.category_of_type ARRANGEMENT_STYLES preference with
  | Some category =>
      style <- style_record category preference ;; Ok (Some style)
  | None => Ok None
  end.
Proof.
  cbv [style_by_preference Spec.category_of_type ARRANGEMENT_STYLES
       Dict.mem Dict.get].
  case_eqb preference. reflexivity.
Qed.

(** Every type of the table has a record. *)
Lemma style_record_of_category (category type : string) :
  Spec.category_of_type ARRANGEMENT_STYLES type = Some category ->
  exists styles entry,
    Dict.get ARRANGEMENT_STYLES category = Some styles /\
    Dict.get styles type = Some entry /\
    style_record category type =
    Ok (Dict.spread [("category", PStr category); ("type", PStr type)] entry).
Proof.
  cbv [Spec.category_of_type ARRANGEMENT_STYLES Dict.mem Dict.get].
  case_eqb type; try discriminate;
    intros H; injection H as <-; do 2 eexists; repeat split.
Qed.

Lemma choose_style_in_table (text preference : string) :
  Spec.category_of_type ARRANGEMENT_STYLES
    (snd (Spec.choose_style text preference))
  = Some (fst (Spec.choose_style text preference)).
Proof.
  unfold Spec.choose_style.
  destruct (String.eqb preference "any");
    destruct (Spec.category_of_type ARRANGEMENT_STYLES preference) eqn:E;
    cbv [Spec.first_rule Spec.style_rules Spec.mentions existsb];
    case_contains; exact E.
Qed.

Lemma detect_arrangement_style_choice (intent preference : string) :
  detect_arrangement_style intent preference =
  style_record (fst (Spec.choose_style intent preference))
               (snd (Spec.choose_style intent preference)).
Proof.
  unfold detect_arrangement_style, Spec.choose_style.
  rewrite style_by_preference_category.
  destruct (String.eqb preference "any");
    destruct (Spec.category_of_type ARRANGEMENT_STYLES preference) as [c|] eqn:E;
    try (destruct (style_record_of_category _ _ E) as (? & ? & _ & _ & H));
    cbv [Spec.first_rule Spec.style_rules Spec.mentions existsb];
    case_contains.
  cbn [fst snd negb bind]. rewrite H. reflexivity.
Qed.

(** ** Colour scheme detection *)

Lemma detect_color_scheme_choice (intent color_preference occasion : string) :
  detect_color_scheme intent color_preference occasion
  = palette_record (Spec.choose_palette intent color_preference).
Proof.
  unfold detect_color_scheme, Spec.choose_palette.
  generalize (Str.lower intent) as text. intros text.
  destruct (Dict.mem color_preference COLOR_PALETTES);
    cbv [palette_by_mention Spec.palette_rules Spec.first_rule Spec.mentions
         existsb Dict.keys map fst app COLOR_PALETTES];
    case_contains.
Qed.

Lemma choose_palette_known (intent color_preference : string) :
  Dict.mem (Spec.choose_palette intent color_preference) COLOR_PALETTES = true.
Proof.
  unfold Spec.choose_palette.
  generalize (Str.lower intent) as text. intros text.
  destruct (Dict.mem color_preference COLOR_PALETTES) eqn:E;
    cbv [Spec.palette_rules Spec.first_rule Spec.mentions
         existsb Dict.keys map fst app COLOR_PALETTES];
    case_contains; exact E.
Qed.

Lemma detect_color_scheme_record (intent color_preference occasion : string) :
  exists palette_data,
    Dict.get COLOR_PALETTES (Spec.choose_palette intent color_preference)
    = Some palette_data /\
    detect_color_scheme intent color_preference occasion
    = Ok (Dict.spread
            [("palette", PStr (Spec.choose_palette intent color_preference))]
            palette_data).
Proof.
  rewrite detect_color_scheme_choice.
  destruct (mem_getitem _ _ (choose_palette_known intent color_preference))
    as (data & Hget & Hitem).
  exists data. split; [exact Hget|].
  unfold palette_record. rewrite Hitem. reflexivity.
Qed.

(** C4.  [detect_color_scheme] returns exactly one palette, the record
    [{"palette": name, **COLOR_PALETTES[name]}] of the name chosen by the first
    satisfied rule in the order: a palette name occurring in the lower-cased
    intent (in table order), a season keyword, a mood keyword, the colour
    preference when it names a palette, and analogous otherwise. *)
Theorem detect_color_scheme_first_rule
    (intent color_preference occasion : string) :
  let name := Spec.choose_palette intent color_preference in
  exists palette_data,
    Dict.get COLOR_PALETTES name = Some palette_data /\
    detect_color_scheme intent color_preference occasion
    = Ok (Dict.spread [("palette", PStr name)] palette_data).
Proof.
  intros name. subst name. apply detect_color_scheme_record.
Qed.

(** ** Structure mapping *)

Definition is_style (category type : string) (style : dict) : bool :=
  eq_str (Dict.get style "category") category
  && eq_str (Dict.get style "type") type.

Ltac case_eq_str :=
  repeat match goal with
  | |- context [eq_str ?a ?b] => destruct (eq_str a b)
  end.

Lemma map_structure_fields (style colors : dict) :
  exists structure,
    map_structure style colors = Ok structure /\
    Dict.keys structure
    = ["balance"; "movement"; "proportion"; "focal"; "density"; "texture"] /\
    Dict.getitem structure "focal"
    = (if is_style "contemporary" "minimalist" style
       then technique "focal_points" "single_dominant"
       else technique "focal_points" "multiple_secondary") /\
    Dict.getitem structure "density"
    = (if is_style "contemporary" "minimalist" style
       then technique "density" "airy_spacious"
       else if is_style "contemporary" "garden_style" style
       then technique "density" "packed_abundant"
       else technique "density" "clustered_with_voids") /\
    (exists balance description,
       Dict.getitem structure "balance" = Ok balance /\
       subscript balance "description" = Ok description) /\
    (exists movement description,
       Dict.getitem structure "movement" = Ok movement /\
       subscript movement "description" = Ok description).
Proof.
  unfold map_structure, is_style.
  case_eq_str; eexists; repeat split; try reflexivity;
    do 2 eexists; split; reflexivity.
Qed.

(** C2, as stated, fails on the code: the focal-point choice does not
    special-case (contemporary, garden_style).  The garden-style record gets
    the same focal technique as the dome record, which is in neither
    combination, while their densities differ. *)
Lemma map_structure_focal_ignores_garden_style :
  let focal_of category type :=
    (style <- style_record category type ;;
     structure <- map_structure style [] ;;
     Dict.getitem structure "focal") in
  let density_of category type :=
    (style <- style_record category type ;;
     structure <- map_structure style [] ;;
     Dict.getitem structure "density") in
  focal_of "contemporary" "garden_style"
  = technique "focal_points" "multiple_secondary"
  /\ focal_of "western_classical" "dome"
     = technique "focal_points" "multiple_secondary"
  /\ density_of "contemporary" "garden_style"
     <> density_of "western_classical" "dome".
Proof.
  repeat split; vm_compute; discriminate.
Qed.

(** C2 (amended).  For every style record [map_structure] returns; its
    density choice special-cases exactly (contemporary, minimalist), to
    airy_spacious, and (contemporary, garden_style), to packed_abundant, with
    clustered_with_voids for every other style; its focal-point choice
    special-cases only (contemporary, minimalist), to single_dominant, with
    multiple_secondary for every other style, garden_style included.  The
    techniques named are all different. *)
Theorem map_structure_focal_and_density (style colors : dict) :
  (exists structure,
     map_structure style colors = Ok structure /\
     Dict.getitem structure "focal"
     = (if is_style "contemporary" "minimalist" style
        then technique "focal_points" "single_dominant"
        else technique "focal_points" "multiple_secondary") /\
     Dict.getitem structure "density"
     = (if is_style "contemporary" "minimalist" style
        then technique "density" "airy_spacious"
        else if is_style "contemporary" "garden_style" style
        then technique "density" "packed_abundant"
        else technique "density" "clustered_with_voids"))
  /\ technique "focal_points" "single_dominant"
     <> technique "focal_points" "multiple_secondary"
  /\ technique "density" "airy_spacious"
     <> technique "density" "packed_abundant"
  /\ technique "density" "airy_spacious"
     <> technique "density" "clustered_with_voids"
  /\ technique "density" "packed_abundant"
     <> technique "density" "clustered_with_voids".
Proof.
  split.
  - destruct (map_structure_fields style colors) as (st & H & _ & Hf & Hd & _).
    exists st. repeat split; assumption.
  - repeat split; vm_compute; discriminate.
Qed.

(** ** Occasions *)

(** The text [map_occasion] searches for an entry: [str(occ_data).lower()]. *)
Definition occasion_text (occ_data : list (string * dict)) : string :=
  Str.lower (py_str (table_val occ_data)).

Lemma occasion_by_keyword_first
    (before after : list (string * list (string * dict)))
    (name : string) (data : list (string * dict)) (occasion : string) :
  existsb (fun entry => Str.contains occasion (occasion_text (snd entry))) before
  = false ->
  Str.contains occasion (occasion_text data) = true ->
  occasion_by_keyword (before ++ (name, data) :: after) occasion
  = Some [(name, table_val data)].
Proof.
  unfold occasion_text. intros Hbefore Hdata.
  induction before as [|[n d] before IH]; cbn [app occasion_by_keyword].
  - rewrite Hdata. reflexivity.
  - cbn [existsb snd] in Hbefore. apply orb_false_iff in Hbefore as [Hd Hrest].
    rewrite Hd. apply IH, Hrest.
Qed.

Definition general_occasion : dict :=
  [("occasion", PStr "general");
   ("notes", PStr "versatile arrangement suitable for various contexts")].

(** C10.  The empty string is no key of the occasion table and occurs in the
    text of the first entry, so [map_occasion] answers with the wedding
    sub-table wrapped under "wedding", not with the general record.  For
    every occasion that is no key and occurs in the lower-cased text of some
    entry, the first such entry in table order (wedding, funeral,
    celebration, everyday) is returned, wrapped under its name. *)
Theorem map_occasion_keyword_fallback :
  Dict.keys OCCASIONS = ["wedding"; "funeral"; "celebration"; "everyday"]
  /\ (forall style : dict,
        exists wedding,
          Dict.get OCCASIONS "wedding" = Some wedding /\
          Dict.mem "" OCCASIONS = false /\
          map_occasion "" style = Ok [("wedding", table_val wedding)] /\
          map_occasion "" style <> Ok general_occasion)
  /\ (forall (occasion : string) (style : dict)
             (before after : list (string * list (string * dict)))
             (name : string) (data : list (string * dict)),
        Dict.mem occasion OCCASIONS = false ->
        OCCASIONS = (before ++ (name, data) :: after)%list ->
        existsb (fun entry => Str.contains occasion (occasion_text (snd entry)))
                before = false ->
        Str.contains occasion (occasion_text data) = true ->
        map_occasion occasion style = Ok [(name, table_val data)]).
Proof.
  split; [reflexivity|]. split.
  - intros style. eexists. split; [reflexivity|]. split; [reflexivity|].
    assert (H : map_occasion "" style
                = Ok [("wedding",
                       table_val (snd (hd ("", []) OCCASIONS)))]).
    { unfold map_occasion. change (Dict.mem "" OCCASIONS) with false.
      cbv iota. unfold OCCASIONS at 1. cbn [occasion_by_keyword].
      rewrite contains_empty. reflexivity. }
    split; [exact H|]. rewrite H. discriminate.
  - intros occasion style before after name data Hkey Htable Hbefore Hdata.
    unfold map_occasion. rewrite Hkey, Htable.
    rewrite (occasion_by_keyword_first _ _ _ _ _ Hbefore Hdata). reflexivity.
Qed.

Lemma map_occasion_keyword_fallback_witness :
  map_occasion "birthday" []
  = Ok [("celebration", table_val (nth 2 (map snd OCCASIONS) []))].
Proof.
  apply (proj2 (proj2 map_occasion_keyword_fallback) "birthday" []
           (firstn 2 OCCASIONS) (skipn 3 OCCASIONS) "celebration"
           (nth 2 (map snd OCCASIONS) [])); vm_compute; reflexivity.
Defined.

(** C8, as stated, fails on the code: for a key of the occasion table the
    result is not the sub-table itself. *)
Lemma suggest_flowers_for_occasion_not_bare_subtable :
  exists wedding,
    Dict.get OCCASIONS "wedding" = Some wedding /\
    suggest_flowers_for_occasion "wedding" <> Ok (table_dict wedding).
Proof.
  eexists. split; [reflexivity|]. vm_compute. discriminate.
Qed.

(** C8 (amended).  For every occasion that is no top-level key of the
    occasion table, [suggest_flowers_for_occasion] returns a record with the
    echoed occasion, an error message and an [available_occasions] list equal
    to the four top-level keys; for every occasion that is a key it returns a
    record with the echoed occasion and, under "recommendations", that
    occasion's sub-table. *)
Theorem suggest_flowers_for_occasion_result (occasion : string) :
  (Dict.get OCCASIONS occasion = None ->
   suggest_flowers_for_occasion occasion
   = Ok [("occasion", PStr occasion);
         ("error", PStr ("Occasion '" ++ occasion ++ "' not found"));
         ("available_occasions",
          PList [PStr "wedding"; PStr "funeral"; PStr "celebration";
                 PStr "everyday"])])
  /\ (forall recommendations,
        Dict.get OCCASIONS occasion = Some recommendations ->
        suggest_flowers_for_occasion occasion
        = Ok [("occasion", PStr occasion);
              ("recommendations", table_val recommendations)]).
Proof.
  unfold suggest_flowers_for_occasion, Dict.mem, Dict.getitem. split.
  - intros ->. reflexivity.
  - intros recs ->. reflexivity.
Qed.

Lemma suggest_flowers_for_occasion_result_witness :
  suggest_flowers_for_occasion "not_a_real_occasion"
  = Ok [("occasion", PStr "not_a_real_occasion");
        ("error", PStr "Occasion 'not_a_real_occasion' not found");
        ("available_occasions",
         PList [PStr "wedding"; PStr "funeral"; PStr "celebration";
                PStr "everyday"])]
  /\ suggest_flowers_for_occasion "everyday"
     = Ok [("occasion", PStr "everyday");
           ("recommendations", table_val (nth 3 (map snd OCCASIONS) []))].
Proof.
  split.
  - apply (proj1 (suggest_flowers_for_occasion_result "not_a_real_occasion")).
    reflexivity.
  - apply (proj2 (suggest_flowers_for_occasion_result "everyday")).
    reflexivity.
Defined.

(** ** Splitting and integer parsing *)


















(** ** The workflow graph *)





















(** ** Dictionary updates *)

Section DictLemmas.
Context {V : Type}.
Implicit Types (d : list (string * V)) (k : string) (v : V).

Lemma get_set_same d k v : Dict.get (Dict.set d k v) k = Some v.
Proof.
  induction d as [|[k' v'] d IH]; cbn [Dict.set Dict.get].
  - now rewrite String.eqb_refl.
  - destruct (String.eqb k' k) eqn:E; cbn [Dict.get]; now rewrite E.
Qed.

Lemma get_set_other d k k' v :
  k' <> k -> Dict.get (Dict.set d k' v) k = Dict.get d k.
Proof.
  intros Hne. induction d as [|[k0 v0] d IH]; cbn [Dict.set Dict.get].
  - apply String.eqb_neq in Hne. now rewrite Hne.
  - destruct (String.eqb k0 k') eqn:E; cbn [Dict.get]; [|now rewrite IH].
    apply String.eqb_eq in E. subst k0.
    apply String.eqb_neq in Hne. now rewrite Hne.
Qed.

Lemma set_set d k v v' : Dict.set (Dict.set d k v) k v' = Dict.set d k v'.
Proof.
  induction d as [|[k' v0] d IH]; cbn [Dict.set].
  - now rewrite String.eqb_refl.
  - destruct (String.eqb k' k) eqn:E; cbn [Dict.set]; rewrite E;
      [reflexivity | now rewrite IH].
Qed.

Lemma set_get_same d k v : Dict.get d k = Some v -> Dict.set d k v = d.
Proof.
  induction d as [|[k' v'] d IH]; cbn [Dict.set Dict.get]; [discriminate|].
  destruct (String.eqb k' k); [now intros [= ->] | intros H; now rewrite IH].
Qed.
End DictLemmas.

Lemma get_spread_fresh (fields d : dict) (k : string) :
  Dict.get d k = None -> Dict.get (Dict.spread fields d) k = Dict.get fields k.
Proof.
  unfold Dict.spread. revert fields.
  induction d as [|[k' v'] d IH]; intros fields; cbn [fold_left Dict.get fst snd];
    [reflexivity|].
  destruct (String.eqb k' k) eqn:E; [discriminate|].
  intros H. rewrite (IH _ H). apply get_set_other.
  now apply String.eqb_neq.
Qed.

(** ** Flower detection *)

Definition roles_dict (focal line filler texture : list pyval) : dict :=
  [("focal", PList focal); ("line", PList line); ("filler", PList filler);
   ("texture", PList texture)].

Module FlowerSpec.

(** The flowers of one role that the intent names, as records, in table
    order. *)
Definition mentioned (intent role : string) (flowers : list (string * dict))
  : list pyval :=
  map (fun entry => flower_record (Str.replace "_" " " (fst entry)) role (snd entry))
      (filter (fun entry => Str.contains (Str.replace "_" " " (fst entry)) intent)
              flowers).

Definition role_flowers (role : string) : list (string * dict) :=
  match Dict.get FLOWERS_BY_ROLE role with
  | Some flowers => flowers
  | None => []
  end.

(** The result of the explicit-mention pass. *)
Definition mentioned_flowers (intent : string) : dict :=
  roles_dict (mentioned intent "focal" (role_flowers "focal"))
             (mentioned intent "line" (role_flowers "line"))
             (mentioned intent "filler" (role_flowers "filler"))
             (mentioned intent "texture" (role_flowers "texture")).

(** Whether the intent names any flower of the table. *)
Definition any_mention (intent : string) : bool :=
  existsb (fun role_entry =>
             existsb (fun entry =>
                        Str.contains (Str.replace "_" " " (fst entry)) intent)
                     (snd role_entry))
          FLOWERS_BY_ROLE.

(** The five branches of the occasion fallback. *)
Inductive branch : Type := Wedding | Romantic | Celebration | Formal | Default.

Definition branch_of (occasion intent : string) : branch :=
  if Str.contains "wedding" occasion || Str.contains "wedding" intent
     || Str.contains "bridal" intent then Wedding
  else if Str.contains "romantic" intent || Str.contains "anniversary" intent
  then Romantic
  else if Str.contains "vibrant" intent || Str.contains "celebration" intent
          || Str.contains "birthday" intent then Celebration
  else if Str.contains "elegant" intent || Str.contains "formal" intent
  then Formal
  else Default.

(** What a branch suggests: role, displayed name, key in the flower table. *)
Definition picks (b : branch) : list (string * string * string) :=
  match b with
  | Wedding => [("focal", "garden roses", "roses");
                ("focal", "peonies", "peonies");
                ("filler", "baby breath", "baby_breath")]
  | Romantic => [("focal", "roses", "roses");
                 ("texture", "ranunculus", "ranunculus")]
  | Celebration => [("focal", "sunflowers", "sunflowers");
                    ("focal", "dahlias", "dahlias")]
  | Formal => [("focal", "orchids", "orchids"); ("focal", "lilies", "lilies")]
  | Default => [("focal", "roses", "roses"); ("filler", "waxflower", "waxflower")]
  end.

Definition suggestions (b : branch) : res dict :=
  for_each (picks b) no_flowers (fun suggested pick =>
    let role := fst (fst pick) in
    flower_data <- flower role (snd pick) ;;
    append_at suggested role (flower_record (snd (fst pick)) role flower_data)).

End FlowerSpec.

Lemma scan_role_appends (intent role : string) (flowers : list (string * dict)) :
  forall (detected : dict) (found : list pyval),
    Dict.get detected role = Some (PList found) ->
    scan_role intent role flowers detected
    = Ok (Dict.set detected role
            (PList (found ++ FlowerSpec.mentioned intent role flowers)%list)).
Proof.
  unfold scan_role, FlowerSpec.mentioned.
  induction flowers as [|[name data] flowers IH]; intros detected found Hget;
    cbn [for_each filter map fst snd].
  - rewrite app_nil_r, (set_get_same _ _ _ Hget). reflexivity.
  - destruct (Str.contains (Str.replace "_" " " name) intent).
    + unfold append_at, Dict.getitem. rewrite Hget. cbn [bind append_method].
      rewrite (IH _ (append found _)) by apply get_set_same.
      rewrite set_set. unfold append. cbn [map fst snd].
      now rewrite <- app_assoc.
    + cbn [bind]. now apply IH.
Qed.

Lemma flowers_table_roles :
  FLOWERS_BY_ROLE
  = [("focal", FlowerSpec.role_flowers "focal");
     ("line", FlowerSpec.role_flowers "line");
     ("filler", FlowerSpec.role_flowers "filler");
     ("texture", FlowerSpec.role_flowers "texture")].
Proof. reflexivity. Qed.

Lemma scan_flowers_mentioned (intent : string) :
  scan_flowers intent FLOWERS_BY_ROLE no_flowers
  = Ok (FlowerSpec.mentioned_flowers intent).
Proof.
  rewrite flowers_table_roles. unfold scan_flowers, no_flowers.
  cbn [for_each fst snd].
  rewrite (scan_role_appends intent "focal" _ _ []) by reflexivity.
  cbn [bind Dict.set String.eqb Ascii.eqb Bool.eqb app].
  rewrite (scan_role_appends intent "line" _ _ []) by reflexivity.
  cbn [bind Dict.set String.eqb Ascii.eqb Bool.eqb app].
  rewrite (scan_role_appends intent "filler" _ _ []) by reflexivity.
  cbn [bind Dict.set String.eqb Ascii.eqb Bool.eqb app].
  rewrite (scan_role_appends intent "texture" _ _ []) by reflexivity.
  reflexivity.
Qed.

Definition names_flower (intent : string) (entry : string * dict) : bool :=
  Str.contains (Str.replace "_" " " (fst entry)) intent.

Lemma truthy_mentioned (intent role : string) (flowers : list (string * dict)) :
  truthy (PList (FlowerSpec.mentioned intent role flowers))
  = existsb (names_flower intent) flowers.
Proof.
  unfold FlowerSpec.mentioned, names_flower.
  induction flowers as [|e flowers IH]; cbn [filter map existsb]; [reflexivity|].
  destruct (Str.contains (Str.replace "_" " " (fst e)) intent); [reflexivity|].
  exact IH.
Qed.

Lemma truthy_mentioned_flowers (intent : string) :
  existsb truthy (Dict.values (FlowerSpec.mentioned_flowers intent))
  = FlowerSpec.any_mention intent.
Proof.
  unfold FlowerSpec.any_mention. rewrite flowers_table_roles.
  unfold FlowerSpec.mentioned_flowers, roles_dict, Dict.values.
  cbn [map snd existsb]. now rewrite !truthy_mentioned.
Qed.

Lemma any_mention_true (intent : string) :
  FlowerSpec.any_mention intent = true <->
  exists role flowers name data,
    In (role, flowers) FLOWERS_BY_ROLE /\ In (name, data) flowers /\
    Str.contains (Str.replace "_" " " name) intent = true.
Proof.
  unfold FlowerSpec.any_mention. rewrite existsb_exists. split.
  - intros ([role flowers] & Hrole & H). apply existsb_exists in H.
    destruct H as ([name data] & Hin & H). now exists role, flowers, name, data.
  - intros (role & flowers & name & data & Hrole & Hin & H).
    exists (role, flowers). split; [exact Hrole|].
    apply existsb_exists. now exists (name, data).
Qed.

Lemma any_mention_false (intent : string) :
  FlowerSpec.any_mention intent = false <->
  forall role flowers name data,
    In (role, flowers) FLOWERS_BY_ROLE -> In (name, data) flowers ->
    Str.contains (Str.replace "_" " " name) intent = false.
Proof.
  split.
  - intros H role flowers name data Hrole Hin.
    destruct (Str.contains (Str.replace "_" " " name) intent) eqn:E;
      [|reflexivity].
    rewrite <- H. symmetry. apply any_mention_true.
    now exists role, flowers, name, data.
  - intros H. destruct (FlowerSpec.any_mention intent) eqn:E; [|reflexivity].
    apply any_mention_true in E.
    destruct E as (role & flowers & name & data & Hrole & Hin & E).
    now rewrite (H _ _ _ _ Hrole Hin) in E.
Qed.

Lemma detect_flowers_cases (intent occasion : string) :
  detect_flowers intent occasion
  = if FlowerSpec.any_mention intent
    then Ok (FlowerSpec.mentioned_flowers intent)
    else suggest_flowers_by_occasion occasion intent.
Proof.
  unfold detect_flowers. rewrite scan_flowers_mentioned. cbn [bind].
  rewrite truthy_mentioned_flowers.
  now destruct (FlowerSpec.any_mention intent).
Qed.

Lemma suggest_flowers_by_occasion_branch (occasion intent : string) :
  suggest_flowers_by_occasion occasion intent
  = FlowerSpec.suggestions (FlowerSpec.branch_of occasion intent).
Proof.
  unfold suggest_flowers_by_occasion, FlowerSpec.branch_of.
  case_contains.
Qed.

Lemma suggestions_ok (b : FlowerSpec.branch) :
  exists focal line filler texture,
    FlowerSpec.suggestions b = Ok (roles_dict focal line filler texture) /\
    (focal <> [] \/ line <> [] \/ filler <> [] \/ texture <> []).
Proof.
  destruct b; do 4 eexists; (split; [reflexivity|]); left; discriminate.
Qed.

Lemma suggestions_injective (b1 b2 : FlowerSpec.branch) :
  FlowerSpec.suggestions b1 = FlowerSpec.suggestions b2 -> b1 = b2.
Proof.
  destruct b1, b2; intros H; try reflexivity; vm_compute in H; discriminate H.
Qed.

Lemma mentioned_flowers_include (intent role name : string)
    (flowers : list (string * dict)) (data : dict) :
  In (role, flowers) FLOWERS_BY_ROLE -> In (name, data) flowers ->
  Str.contains (Str.replace "_" " " name) intent = true ->
  exists found,
    Dict.get (FlowerSpec.mentioned_flowers intent) role = Some (PList found) /\
    In (flower_record (Str.replace "_" " " name) role data) found.
Proof.
  intros Hrole Hin Hc. rewrite flowers_table_roles in Hrole.
  assert (Hm : In (flower_record (Str.replace "_" " " name) role data)
                  (FlowerSpec.mentioned intent role flowers)).
  { unfold FlowerSpec.mentioned.
    apply (in_map (fun entry =>
                     flower_record (Str.replace "_" " " (fst entry)) role
                       (snd entry)) _ (name, data)).
    apply filter_In. now split. }
  destruct Hrole as [H | [H | [H | [H | []]]]]; injection H as <- <-;
    eexists; (split; [reflexivity | exact Hm]).
Qed.

(** C5.  For every intent and occasion [detect_flowers] returns a mapping with
    exactly the four role keys.  Every flower of the table whose name, with
    underscores replaced by spaces, occurs in the intent is in the result
    under its role, and then the result is that of the explicit-mention pass.
    When no flower name occurs in the intent the result is that of the
    occasion fallback, which is the suggestion of exactly one of its five
    branches; the five suggestions are pairwise different and each holds at
    least one flower. *)
Theorem detect_flowers_mentions_and_fallback (intent occasion : string) :
  (exists detected,
     detect_flowers intent occasion = Ok detected /\
     Dict.keys detected = ["focal"; "line"; "filler"; "texture"])
  /\ (forall role flowers name data,
        In (role, flowers) FLOWERS_BY_ROLE -> In (name, data) flowers ->
        Str.contains (Str.replace "_" " " name) intent = true ->
        detect_flowers intent occasion = Ok (FlowerSpec.mentioned_flowers intent)
        /\ exists found,
             Dict.get (FlowerSpec.mentioned_flowers intent) role
             = Some (PList found) /\
             In (flower_record (Str.replace "_" " " name) role data) found)
  /\ ((forall role flowers name data,
         In (role, flowers) FLOWERS_BY_ROLE -> In (name, data) flowers ->
         Str.contains (Str.replace "_" " " name) intent = false) ->
      detect_flowers intent occasion
      = suggest_flowers_by_occasion occasion intent)
  /\ suggest_flowers_by_occasion occasion intent
     = FlowerSpec.suggestions (FlowerSpec.branch_of occasion intent)
  /\ (forall b, exists focal line filler texture,
        FlowerSpec.suggestions b = Ok (roles_dict focal line filler texture) /\
        (focal <> [] \/ line <> [] \/ filler <> [] \/ texture <> []))
  /\ (forall b1 b2,
        FlowerSpec.suggestions b1 = FlowerSpec.suggestions b2 -> b1 = b2).
Proof.
  repeat split.
  - rewrite detect_flowers_cases.
    destruct (FlowerSpec.any_mention intent).
    + eexists. split; reflexivity.
    + rewrite suggest_flowers_by_occasion_branch.
      destruct (suggestions_ok (FlowerSpec.branch_of occasion intent))
        as (f & l & fi & t & -> & _).
      eexists. split; reflexivity.
  - rewrite detect_flowers_cases.
    replace (FlowerSpec.any_mention intent) with true; [reflexivity|].
    symmetry. apply any_mention_true. now exists role, flowers, name, data.
  - now apply mentioned_flowers_include with (flowers := flowers).
  - intros H. apply any_mention_false in H.
    rewrite detect_flowers_cases, H. reflexivity.
  - apply suggest_flowers_by_occasion_branch.
  - apply suggestions_ok.
  - apply suggestions_injective.
Qed.

Lemma detect_flowers_mentions_and_fallback_witness :
  (exists found,
     Dict.get (FlowerSpec.mentioned_flowers "roses with bells of ireland") "line"
     = Some (PList found) /\
     In (flower_record "bells of ireland" "line"
           (nth 4 (map snd (FlowerSpec.role_flowers "line")) [])) found)
  /\ detect_flowers "a birthday bouquet" "general"
     = suggest_flowers_by_occasion "general" "a birthday bouquet".
Proof.
  split.
  - apply (proj1 (proj2 (detect_flowers_mentions_and_fallback
                           "roses with bells of ireland" "general"))
             "line" (FlowerSpec.role_flowers "line") "bells_of_ireland").
    + vm_compute. tauto.
    + vm_compute. tauto.
    + reflexivity.
  - apply (proj1 (proj2 (proj2 (detect_flowers_mentions_and_fallback
                                  "a birthday bouquet" "general")))).
    apply any_mention_false. reflexivity.
Defined.

(** ** The prompt formatter *)

Module PromptSpec.

(** An optional segment: omitted when its list of names is empty. *)
Definition optional_clause (before : string) (names : list string)
    (after : string) : list string :=
  match names with
  | [] => []
  | _ :: _ => [before ++ Str.join ", " names ++ after]
  end.



End PromptSpec.









(** ** The pipeline always produces a sentence *)

(** A record whose ["name"] is a string. *)
Definition named (v : pyval) : Prop :=
  exists s, subscript v "name" = Ok (PStr s).

Lemma named_record (name : string) (fields data : dict) :
  Dict.get data "name" = None ->
  named (PDict (Dict.spread (("name", PStr name) :: fields) data)).
Proof.
  intros H. exists name. unfold subscript, Dict.getitem.
  rewrite (get_spread_fresh _ _ _ H). reflexivity.
Qed.

Definition unnamed (entry : string * dict) : Prop :=
  Dict.get (snd entry) "name" = None.

Lemma flowers_unnamed :
  Forall (fun role_entry => Forall unnamed (snd role_entry)) FLOWERS_BY_ROLE.
Proof. repeat constructor. Qed.

Lemma foliage_unnamed :
  Forall (fun category_entry => Forall unnamed (snd category_entry)) FOLIAGE_TYPES.
Proof. repeat constructor. Qed.

Lemma mentioned_named (intent role : string) (flowers : list (string * dict)) :
  Forall unnamed flowers ->
  Forall named (FlowerSpec.mentioned intent role flowers).
Proof.
  unfold FlowerSpec.mentioned. intros H.
  induction H as [|e flowers He _ IH]; cbn [filter map]; [constructor|].
  destruct (Str.contains _ intent); [|exact IH].
  cbn [map]. constructor; [|exact IH]. now apply named_record.
Qed.

Lemma role_flowers_unnamed (role : string) :
  Forall unnamed (FlowerSpec.role_flowers role).
Proof.
  unfold FlowerSpec.role_flowers.
  destruct (Dict.get FLOWERS_BY_ROLE role) as [flowers|] eqn:E; [|constructor].
  pose proof flowers_unnamed as H. rewrite Forall_forall in H.
  apply (H (role, flowers)). clear H. revert E.
  generalize FLOWERS_BY_ROLE as table.
  induction table as [|[k v] table IH]; cbn [Dict.get]; [discriminate|].
  destruct (String.eqb k role) eqn:Ek.
  - intros [= ->]. apply String.eqb_eq in Ek. subst. now left.
  - intros H. right. now apply IH.
Qed.

Lemma detect_flowers_named (intent occasion : string) :
  exists focal line filler texture,
    detect_flowers intent occasion = Ok (roles_dict focal line filler texture) /\
    Forall named focal /\ Forall named line /\ Forall named filler /\
    Forall named texture.
Proof.
  rewrite detect_flowers_cases. destruct (FlowerSpec.any_mention intent).
  - do 4 eexists. split; [reflexivity|].
    repeat split; apply mentioned_named, role_flowers_unnamed.
  - rewrite suggest_flowers_by_occasion_branch.
    destruct (FlowerSpec.branch_of occasion intent);
      do 4 eexists; (split; [reflexivity|]);
      repeat split; repeat constructor; eexists; reflexivity.
Qed.

Lemma for_each_invariant {A S : Type} (P : S -> Prop) (l : list A)
    (body : S -> A -> res S) :
  (forall s a, In a l -> P s -> exists s', body s a = Ok s' /\ P s') ->
  forall s, P s -> exists s', for_each l s body = Ok s' /\ P s'.
Proof.
  induction l as [|a l IH]; intros Hbody s Hs; cbn [for_each].
  - now exists s.
  - destruct (Hbody s a (or_introl eq_refl) Hs) as (s1 & -> & Hs1).
    cbn [bind]. apply IH; [|exact Hs1].
    intros s0 a0 Hin. apply Hbody. now right.
Qed.

Lemma scan_foliage_named (intent : string) :
  exists foliage,
    scan_foliage intent FOLIAGE_TYPES [] = Ok foliage /\ Forall named foliage.
Proof.
  unfold scan_foliage.
  apply (for_each_invariant (Forall named)); [|constructor].
  intros foliage [category types] Hin Hnamed. cbn [fst snd].
  apply (for_each_invariant (Forall named)); [|exact Hnamed].
  intros foliage' [name data] Hin' Hnamed'. cbn [fst snd].
  destruct (Str.contains _ intent); [|now exists foliage'].
  eexists. split; [reflexivity|]. unfold append.
  apply Forall_app. split; [exact Hnamed'|]. constructor; [|constructor].
  apply named_record.
  pose proof foliage_unnamed as H. rewrite Forall_forall in H.
  specialize (H _ Hin). cbn [snd] in H. rewrite Forall_forall in H.
  exact (H _ Hin').
Qed.

Lemma detect_foliage_named (intent : string) (style : dict) :
  exists foliage,
    detect_foliage intent style = Ok foliage /\ Forall named foliage /\
    foliage <> [].
Proof.
  unfold detect_foliage.
  destruct (scan_foliage_named intent) as (found & -> & Hfound). cbn [bind].
  destruct found as [|x found].
  - case_eq_str; cbn [andb]; eexists; (split; [reflexivity|]);
      (split; [|discriminate]); repeat constructor; eexists; reflexivity.
  - eexists. split; [reflexivity|]. split; [exact Hfound | discriminate].
Qed.

(** The ["colors"] entry of a palette record, when present, is a list of
    strings. *)
Definition joinable_colors (palette : dict) : Prop :=
  Dict.mem "colors" palette = false \/
  exists color_list joined,
    Dict.get palette "colors" = Some color_list /\
    join_val ", " color_list = Ok joined.

Lemma palette_record_joinable (name : string) (palette_data : dict) :
  Dict.get COLOR_PALETTES name = Some palette_data ->
  joinable_colors (Dict.spread [("palette", PStr name)] palette_data).
Proof.
  cbv [COLOR_PALETTES Dict.get].
  case_eqb name; try discriminate; intros [= <-];
    solve [ left; reflexivity | right; do 2 eexists; split; reflexivity ].
Qed.

Lemma detect_color_scheme_joinable (intent color_preference occasion : string) :
  exists palette,
    detect_color_scheme intent color_preference occasion = Ok palette /\
    joinable_colors palette.
Proof.
  destruct (detect_color_scheme_record intent color_preference occasion)
    as (data & Hget & ->).
  eexists. split; [reflexivity|]. now apply palette_record_joinable.
Qed.

Lemma style_record_fields (category type : string) :
  Spec.category_of_type ARRANGEMENT_STYLES type = Some category ->
  exists style container,
    style_record category type = Ok style /\
    Dict.get style "category" = Some (PStr category) /\
    Dict.get style "type" = Some (PStr type) /\
    Dict.get style "container" = Some container.
Proof.
  cbv [Spec.category_of_type ARRANGEMENT_STYLES Dict.mem Dict.get].
  case_eqb type; try discriminate;
    intros H; injection H as <-; do 2 eexists; repeat split.
Qed.

Lemma detect_arrangement_style_fields (intent preference : string) :
  exists style container,
    detect_arrangement_style intent preference = Ok style /\
    Dict.get style "category"
    = Some (PStr (fst (Spec.choose_style intent preference))) /\
    Dict.get style "type"
    = Some (PStr (snd (Spec.choose_style intent preference))) /\
    Dict.get style "container" = Some container.
Proof.
  rewrite detect_arrangement_style_choice.
  apply style_record_fields, choose_style_in_table.
Qed.

Lemma map_occasion_total (occasion : string) (style : dict) :
  exists specs, map_occasion occasion style = Ok specs.
Proof.
  unfold map_occasion. destruct (Dict.mem occasion OCCASIONS) eqn:E.
  - destruct (mem_getitem _ _ E) as (data & _ & ->). eexists. reflexivity.
  - destruct (occasion_by_keyword OCCASIONS occasion); eexists; reflexivity.
Qed.

Lemma get_cultural_context_total (style : dict) :
  exists context, get_cultural_context style = Ok context.
Proof.
  unfold get_cultural_context. case_eq_str; cbn [andb]; eexists; reflexivity.
Qed.

Lemma names_of_named (items : list pyval) :
  Forall named items ->
  exists strs, names_of (PList items) = Ok (map PStr strs).
Proof.
  unfold names_of. cbn [iterate bind]. intros H.
  induction H as [|x items [s Hx] _ [strs IH]]; cbn [mapM].
  - now exists [].
  - rewrite Hx, IH. now exists (s :: strs).
Qed.

Lemma mapM_map_PStr (strs : list string) :
  mapM (fun x => match x with PStr s => Ok s | _ => Raise TypeError end)
       (map PStr strs) = Ok strs.
Proof.
  induction strs as [|s strs IH]; cbn [map mapM bind]; [reflexivity|].
  now rewrite IH.
Qed.

Lemma append_clause_strings (parts : list string) (before after : string)
    (strs : list string) :
  append_clause parts before (map PStr strs) after
  = Ok (parts ++ PromptSpec.optional_clause before strs after)%list.
Proof.
  unfold append_clause, PromptSpec.optional_clause.
  destruct strs as [|s strs]; cbn [map]; [now rewrite app_nil_r|].
  unfold join_val. cbn [iterate bind].
  change (PStr s :: map PStr strs) with (map PStr (s :: strs)).
  rewrite mapM_map_PStr. reflexivity.
Qed.

(** A mapping result as [map_floral_taxonomy] builds it. *)
Definition mapping_result (user_intent : string) (style flowers : dict)
    (foliage : list pyval) (colors structure occasion cultural_context : dict)
  : dict :=
  [("user_intent", PStr user_intent);
   ("style", PDict style);
   ("flowers", PDict flowers);
   ("foliage", PList foliage);
   ("colors", PDict colors);
   ("structure", PDict structure);
   ("occasion", PDict occasion);
   ("cultural_context", PDict cultural_context)].

Lemma prompt_parts_total (user_intent style_type : string) (container : pyval)
    (style : dict) (focal line filler texture foliage : list pyval)
    (colors structure occasion cultural_context : dict) :
  Dict.get style "type" = Some (PStr style_type) ->
  Dict.get style "container" = Some container ->
  Forall named focal -> Forall named line -> Forall named filler ->
  Forall named foliage ->
  joinable_colors colors ->
  (exists balance description,
     Dict.getitem structure "balance" = Ok balance /\
     subscript balance "description" = Ok description) ->
  (exists movement description,
     Dict.getitem structure "movement" = Ok movement /\
     subscript movement "description" = Ok description) ->
  exists parts,
    prompt_parts (mapping_result user_intent style
                    (roles_dict focal line filler texture) foliage colors
                    structure occasion cultural_context) = Ok parts.
Proof.
  intros Htype Hcontainer Hfocal Hline Hfiller Hfoliage Hcolors
    (balance & bd & Hb & Hbd) (movement & md & Hm & Hmd).
  apply names_of_named in Hfocal, Hline, Hfiller, Hfoliage.
  destruct Hfocal as [fs Hfocal], Hline as [ls Hline],
    Hfiller as [fis Hfiller], Hfoliage as [fos Hfoliage].
  unfold prompt_parts, mapping_result, roles_dict.
  cbn [Dict.getitem Dict.get String.eqb Ascii.eqb Bool.eqb bind subscript
       get_method].
  unfold Dict.getitem at 1. rewrite Htype. cbn [bind str_method].
  unfold Dict.getitem at 1. rewrite Hcontainer. cbn [bind].
  rewrite Hfocal. cbn [bind]. rewrite append_clause_strings. cbn [bind].
  rewrite Hline. cbn [bind]. rewrite append_clause_strings. cbn [bind].
  rewrite Hfiller. cbn [bind]. rewrite append_clause_strings. cbn [bind].
  rewrite Hfoliage. cbn [bind]. rewrite append_clause_strings. cbn [bind].
  cbn [contains_str bind].
  destruct Hcolors as [Hnone | (cl & joined & Hget & Hjoin)].
  - rewrite Hnone. cbn [bind]. rewrite Hb. cbn [bind]. rewrite Hbd.
    cbn [bind]. rewrite Hm. cbn [bind]. rewrite Hmd. cbn [bind].
    eexists. reflexivity.
  - unfold Dict.mem. rewrite Hget. unfold Dict.getitem at 1. rewrite Hget.
    cbn [bind]. rewrite Hjoin. cbn [bind]. rewrite Hb. cbn [bind]. rewrite Hbd.
    cbn [bind]. rewrite Hm. cbn [bind]. rewrite Hmd. cbn [bind].
    eexists. reflexivity.
Qed.

(** What every result of [map_floral_taxonomy] satisfies. *)
Definition shaped (mapped style : dict) : Prop :=
  exists (user_intent : string) (focal line filler texture foliage : list pyval)
         (colors structure occasion cultural_context : dict)
         (category type : string) (container : pyval),
    mapped = mapping_result user_intent style
               (roles_dict focal line filler texture) foliage colors structure
               occasion cultural_context /\
    Dict.get style "category" = Some (PStr category) /\
    Dict.get style "type" = Some (PStr type) /\
    Dict.get style "container" = Some container /\
    Forall named focal /\ Forall named line /\ Forall named filler /\
    Forall named texture /\ Forall named foliage /\
    joinable_colors colors /\
    (exists balance description,
       Dict.getitem structure "balance" = Ok balance /\
       subscript balance "description" = Ok description) /\
    (exists movement description,
       Dict.getitem structure "movement" = Ok movement /\
       subscript movement "description" = Ok description).

Lemma map_floral_taxonomy_shaped
    (user_intent style_preference occasion color_scheme : string) :
  exists mapped style,
    map_floral_taxonomy user_intent style_preference occasion color_scheme
    = Ok mapped /\
    detect_arrangement_style (Str.lower user_intent) style_preference
    = Ok style /\
    shaped mapped style.
Proof.
  unfold map_floral_taxonomy.
  destruct (detect_arrangement_style_fields (Str.lower user_intent)
              style_preference)
    as (style & container & Hstyle & Hcategory & Htype & Hcontainer).
  rewrite Hstyle. cbn [bind].
  destruct (detect_flowers_named (Str.lower user_intent) occasion)
    as (focal & line & filler & texture & -> & Hfocal & Hline & Hfiller
        & Htexture).
  cbn [bind].
  destruct (detect_foliage_named (Str.lower user_intent) style)
    as (foliage & -> & Hfoliage & _).
  cbn [bind].
  destruct (detect_color_scheme_joinable (Str.lower user_intent) color_scheme
              occasion) as (colors & -> & Hcolors).
  cbn [bind].
  destruct (map_structure_fields style colors)
    as (structure & -> & _ & _ & _ & Hbalance & Hmovement).
  cbn [bind].
  destruct (map_occasion_total occasion style) as (specs & ->).
  cbn [bind].
  destruct (get_cultural_context_total style) as (context & ->).
  cbn [bind].
  do 2 eexists. split; [reflexivity|]. split; [reflexivity|].
  exists user_intent, focal, line, filler, texture, foliage, colors, structure,
    specs, context.
  do 3 eexists. repeat split; eassumption.
Qed.

Lemma shaped_formats (mapped style : dict) :
  shaped mapped style ->
  Dict.get mapped "style" = Some (PDict style) /\
  exists prompt, format_prompt_enhancement mapped = Ok prompt.
Proof.
  intros (user_intent & focal & line & filler & texture & foliage & colors
          & structure & specs & context & category & type & container & ->
          & _ & Htype & Hcontainer & Hfocal & Hline & Hfiller & _ & Hfoliage
          & Hcolors & Hbalance & Hmovement).
  split; [reflexivity|].
  destruct (prompt_parts_total user_intent _ container style focal line filler
              texture foliage colors structure specs context Htype Hcontainer
              Hfocal Hline Hfiller Hfoliage Hcolors Hbalance Hmovement)
    as (parts & Hparts).
  exists (Str.join ", " parts).
  unfold format_prompt_enhancement. now rewrite Hparts.
Qed.

Lemma map_floral_taxonomy_formats
    (user_intent style_preference occasion color_scheme : string) :
  exists mapped style prompt,
    map_floral_taxonomy user_intent style_preference occasion color_scheme
    = Ok mapped /\
    detect_arrangement_style (Str.lower user_intent) style_preference
    = Ok style /\
    Dict.get mapped "style" = Some (PDict style) /\
    format_prompt_enhancement mapped = Ok prompt.
Proof.
  destruct (map_floral_taxonomy_shaped user_intent style_preference occasion
              color_scheme) as (mapped & style & Hm & Hs & Hshaped).
  destruct (shaped_formats _ _ Hshaped) as (Hget & prompt & Hprompt).
  now exists mapped, style, prompt.
Qed.





(** With no line flower among those detected, the sentence of the pipeline
    has no "creating vertical lines" text and no empty ", ," segment, and it
    names the palette. *)
Example prompt_without_line_flowers :
  exists mapped prompt,
    map_floral_taxonomy "romantic spring wedding centerpiece" "any" "wedding"
      "romantic" = Ok mapped /\
    role_names (PDict (match Dict.get mapped "flowers" with
                       | Some (PDict flowers) => flowers
                       | _ => []
                       end)) "line" = Ok [] /\
    format_prompt_enhancement mapped = Ok prompt /\
    Str.contains "creating vertical lines" prompt = false /\
    Str.contains ", ," prompt = false /\
    Str.contains " palette" prompt = true.
Proof.
  do 2 eexists. repeat split; vm_compute; reflexivity.
Qed.

(** ** Model files *)




(** ** Style detection, end to end *)

(** C1, as stated, fails on the code.  "trailing vines" holds none of the
    listed trigger phrases and "any" names no style type, yet the result is
    the cascade record and not the garden-style one; and the test is
    case-sensitive: on "IKEBANA" the ikebana rule does not fire. *)
Lemma detect_arrangement_style_stated_rules_fail :
  (Spec.first_rule Spec.stated_style_rules (Str.lower "trailing vines") = None
   /\ Spec.known_style_type "any" = false
   /\ detect_arrangement_style "trailing vines" "any"
      = style_record "western_classical" "cascade"
   /\ detect_arrangement_style "trailing vines" "any"
      <> style_record "contemporary" "garden_style")
  /\
  (Spec.first_rule Spec.stated_style_rules (Str.lower "IKEBANA")
   = Some ("ikebana", "nageire")
   /\ detect_arrangement_style "IKEBANA" "any"
      = style_record "contemporary" "garden_style"
   /\ detect_arrangement_style "IKEBANA" "any"
      <> style_record "ikebana" "nageire").
Proof.
  repeat split; try reflexivity; vm_compute; discriminate.
Qed.

(** C1 (amended).  [detect_arrangement_style] tests the trigger phrases as
    substrings of the intent it is given, in the priority order
    ikebana/japanese (moribana when the intent names it, else nageire),
    cascade/waterfall/trailing, dome/round/centerpiece,
    minimal/modern/contemporary, garden/loose/natural/romantic,
    crescent/curve, and returns the record of the first matching rule; when
    no rule matches it returns the record of the preferred type if the
    preference is not "any" and names a type of the table, and the
    contemporary garden_style record otherwise.  It never raises: the result
    is the table entry of the chosen (category, type) with these two fields
    in front.  The test is case-sensitive; [map_floral_taxonomy] passes the
    lower-cased intent, and the style of its result is the style detected on
    that. *)
Theorem detect_arrangement_style_first_match (intent preference : string) :
  let chosen := Spec.choose_style intent preference in
  detect_arrangement_style intent preference
  = style_record (fst chosen) (snd chosen)
  /\ (exists styles entry,
        Dict.get ARRANGEMENT_STYLES (fst chosen) = Some styles /\
        Dict.get styles (snd chosen) = Some entry /\
        detect_arrangement_style intent preference
        = Ok (Dict.spread [("category", PStr (fst chosen));
                           ("type", PStr (snd chosen))] entry))
  /\ (forall occasion color_scheme : string,
        exists mapped style,
          map_floral_taxonomy intent preference occasion color_scheme
          = Ok mapped /\
          detect_arrangement_style (Str.lower intent) preference = Ok style /\
          Dict.get mapped "style" = Some (PDict style)).
Proof.
  intros chosen. split; [apply detect_arrangement_style_choice|]. split.
  - rewrite detect_arrangement_style_choice.
    apply style_record_of_category, choose_style_in_table.
  - intros occasion color_scheme.
    destruct (map_floral_taxonomy_formats intent preference occasion
                color_scheme) as (mapped & style & _ & Hm & Hs & Hget & _).
    now exists mapped, style.
Qed.

(** The overlap example of the specification: "modern ikebana" holds triggers
    of two rules and the ikebana rule, checked first, wins. *)
Example modern_ikebana :
  detect_arrangement_style "modern ikebana" "any"
  = style_record "ikebana" "nageire".
Proof. reflexivity. Qed.

(** * Further properties of the pipeline *)

(** ** Case and the mapping *)

Lemma lower_char_idempotent (c : ascii) :
  Str.lower_char (Str.lower_char c) = Str.lower_char c.
Proof. destruct c as [[] [] [] [] [] [] [] []]; reflexivity. Qed.

Lemma lower_idempotent (s : string) : Str.lower (Str.lower s) = Str.lower s.
Proof.
  induction s as [|c s IH]; cbn [Str.lower]; [reflexivity|].
  now rewrite lower_char_idempotent, IH.
Qed.

(** The mapping of an intent is the mapping of its lower-cased form, with the
    echoed intent put back: apart from the ["user_intent"] entry the result
    does not depend on the case of the letters of the intent. *)
Theorem map_floral_taxonomy_ignores_case
    (user_intent style_preference occasion color_scheme : string) :
  map_floral_taxonomy user_intent style_preference occasion color_scheme
  = (mapped <- map_floral_taxonomy (Str.lower user_intent) style_preference
                 occasion color_scheme ;;
     Ok (Dict.set mapped "user_intent" (PStr user_intent))).
Proof.
  unfold map_floral_taxonomy. rewrite lower_idempotent.
  destruct (detect_arrangement_style _ _) as [style|]; [|reflexivity].
  cbn [bind].
  destruct (detect_flowers _ _); [|reflexivity]. cbn [bind].
  destruct (detect_foliage _ _); [|reflexivity]. cbn [bind].
  destruct (detect_color_scheme _ _ _) as [colors|]; [|reflexivity]. cbn [bind].
  destruct (map_structure _ _); [|reflexivity]. cbn [bind].
  destruct (map_occasion _ _); [|reflexivity]. cbn [bind].
  destruct (get_cultural_context _); reflexivity.
Qed.

Lemma map_floral_taxonomy_keys
    (user_intent style_preference occasion color_scheme : string) :
  exists mapped flowers foliage,
    map_floral_taxonomy user_intent style_preference occasion color_scheme
    = Ok mapped /\
    Dict.keys mapped
    = ["user_intent"; "style"; "flowers"; "foliage"; "colors"; "structure";
       "occasion"; "cultural_context"] /\
    Dict.get mapped "user_intent" = Some (PStr user_intent) /\
    Dict.get mapped "flowers" = Some (PDict flowers) /\
    Dict.keys flowers = ["focal"; "line"; "filler"; "texture"] /\
    Dict.get mapped "foliage" = Some (PList foliage) /\
    foliage <> [].
Proof.
  unfold map_floral_taxonomy.
  destruct (detect_arrangement_style_fields (Str.lower user_intent)
              style_preference) as (style & _ & -> & _).
  cbn [bind].
  destruct (detect_flowers_named (Str.lower user_intent) occasion)
    as (focal & line & filler & texture & -> & _).
  cbn [bind].
  destruct (detect_foliage_named (Str.lower user_intent) style)
    as (foliage & -> & _ & Hne).
  cbn [bind].
  destruct (detect_color_scheme_joinable (Str.lower user_intent) color_scheme
              occasion) as (colors & -> & _).
  cbn [bind].
  destruct (map_structure_fields style colors) as (structure & -> & _).
  cbn [bind].
  destruct (map_occasion_total occasion style) as (specs & ->).
  cbn [bind].
  destruct (get_cultural_context_total style) as (context & ->).
  cbn [bind].
  do 3 eexists. repeat split. exact Hne.
Qed.

(** [map_floral_taxonomy] never raises.  Its result has exactly the eight
    keys of a mapping result, echoes the intent as given, lists at least one
    foliage, and its flowers have the four role keys. *)
Theorem map_floral_taxonomy_total
    (user_intent style_preference occasion color_scheme : string) :
  exists mapped flowers foliage,
    map_floral_taxonomy user_intent style_preference occasion color_scheme
    = Ok mapped /\
    Dict.keys mapped
    = ["user_intent"; "style"; "flowers"; "foliage"; "colors"; "structure";
       "occasion"; "cultural_context"] /\
    Dict.get mapped "user_intent" = Some (PStr user_intent) /\
    Dict.get mapped "flowers" = Some (PDict flowers) /\
    Dict.keys flowers = ["focal"; "line"; "filler"; "texture"] /\
    Dict.get mapped "foliage" = Some (PList foliage) /\
    foliage <> [].
Proof.
  apply map_floral_taxonomy_keys.
Qed.

(** ** The style preference *)

Definition style_trigger (intent : string) : bool :=
  match Spec.first_rule Spec.style_rules intent with
  | Some _ => true
  | None => false
  end.

(** The style preference is a fallback only: when a trigger phrase occurs in
    the intent the preference has no effect on the detected style. *)
Theorem style_preference_ignored_on_trigger
    (intent preference1 preference2 : string) :
  style_trigger intent = true ->
  detect_arrangement_style intent preference1
  = detect_arrangement_style intent preference2.
Proof.
  unfold style_trigger. intros H.
  rewrite !detect_arrangement_style_choice. unfold Spec.choose_style.
  destruct (Spec.first_rule Spec.style_rules intent); [reflexivity|discriminate].
Qed.

Lemma style_preference_ignored_on_trigger_witness :
  detect_arrangement_style "a modern vase" "rikka"
  = detect_arrangement_style "a modern vase" "cascade".
Proof.
  apply style_preference_ignored_on_trigger. reflexivity.
Defined.

(** From the text alone only seven of the fourteen styles can be detected:
    with the preference "any" the detected type is never rikka, hogarth,
    triangular, vertical, horizontal, structural or parallel. *)
Theorem detect_arrangement_style_reachable_types (intent : string) :
  exists style,
    detect_arrangement_style intent "any" = Ok style /\
    In (Dict.get style "type")
       (map (fun type => Some (PStr type))
            ["moribana"; "nageire"; "cascade"; "dome"; "minimalist";
             "garden_style"; "crescent"]).
Proof.
  destruct (detect_arrangement_style_fields intent "any")
    as (style & _ & -> & _ & Htype & _).
  exists style. split; [reflexivity|]. rewrite Htype.
  unfold Spec.choose_style.
  cbv [Spec.first_rule Spec.style_rules Spec.mentions existsb].
  repeat match goal with
  | |- context [Str.contains ?n ?h] =>
      destruct (Str.contains n h); cbn [orb]; try (cbn; tauto)
  end.
Qed.
(** ** Detected flowers *)

(** A record built from an entry of the flower table of the role. *)
Definition from_flower_table (role : string) (v : pyval) : Prop :=
  exists key data shown,
    In (key, data) (FlowerSpec.role_flowers role) /\
    v = flower_record shown role data /\
    subscript v "name" = Ok (PStr shown) /\
    subscript v "role" = Ok (PStr role).

Definition plain (entry : string * dict) : Prop :=
  Dict.get (snd entry) "name" = None /\ Dict.get (snd entry) "role" = None.

Lemma role_flowers_plain (role : string) :
  Forall plain (FlowerSpec.role_flowers role).
Proof.
  unfold FlowerSpec.role_flowers.
  cbv [FLOWERS_BY_ROLE Dict.get].
  repeat match goal with
  | |- context [String.eqb ?a role] => destruct (String.eqb a role)
  end; repeat constructor.
Qed.

Lemma flower_record_fields (shown role : string) (data : dict) :
  plain ("", data) ->
  subscript (flower_record shown role data) "name" = Ok (PStr shown) /\
  subscript (flower_record shown role data) "role" = Ok (PStr role).
Proof.
  intros [Hname Hrole]. cbn [snd] in *.
  unfold flower_record, subscript, Dict.getitem.
  rewrite (get_spread_fresh _ _ _ Hname), (get_spread_fresh _ _ _ Hrole).
  split; reflexivity.
Qed.

Lemma mentioned_from_table (intent role : string) (flowers : list (string * dict)) :
  (forall entry, In entry flowers -> In entry (FlowerSpec.role_flowers role)) ->
  Forall (from_flower_table role) (FlowerSpec.mentioned intent role flowers).
Proof.
  unfold FlowerSpec.mentioned. intros Hsub. apply Forall_forall. intros v Hv.
  apply in_map_iff in Hv. destruct Hv as ([key data] & <- & Hin).
  apply filter_In in Hin. destruct Hin as [Hin _]. cbn [fst snd].
  exists key, data, (Str.replace "_" " " key).
  split; [now apply Hsub|]. split; [reflexivity|].
  apply flower_record_fields.
  pose proof (role_flowers_plain role) as Hplain.
  rewrite Forall_forall in Hplain. exact (Hplain _ (Hsub _ Hin)).
Qed.

Lemma suggestions_from_table (b : FlowerSpec.branch) :
  exists focal line filler texture,
    FlowerSpec.suggestions b = Ok (roles_dict focal line filler texture) /\
    Forall (from_flower_table "focal") focal /\
    Forall (from_flower_table "line") line /\
    Forall (from_flower_table "filler") filler /\
    Forall (from_flower_table "texture") texture /\
    focal <> [] /\ line = [].
Proof.
  destruct b; do 4 eexists; (split; [reflexivity|]);
    repeat split; try discriminate;
    repeat constructor;
    (do 3 eexists; split; [|split; [reflexivity | split; reflexivity]]);
    vm_compute; tauto.
Qed.

(** Every record [detect_flowers] returns under a role is built from an entry
    of that role in the flower table and carries that role and a string name.
    When the result comes from the occasion fallback it holds at least one
    focal flower and no line flower. *)
Theorem detect_flowers_records (intent occasion : string) :
  exists focal line filler texture,
    detect_flowers intent occasion = Ok (roles_dict focal line filler texture) /\
    Forall (from_flower_table "focal") focal /\
    Forall (from_flower_table "line") line /\
    Forall (from_flower_table "filler") filler /\
    Forall (from_flower_table "texture") texture /\
    (FlowerSpec.any_mention intent = false -> focal <> [] /\ line = []).
Proof.
  rewrite detect_flowers_cases.
  destruct (FlowerSpec.any_mention intent).
  - do 4 eexists. split; [reflexivity|].
    repeat split; try discriminate; apply mentioned_from_table; auto.
  - rewrite suggest_flowers_by_occasion_branch.
    destruct (suggestions_from_table (FlowerSpec.branch_of occasion intent))
      as (f & l & fi & t & -> & Hf & Hl & Hfi & Ht & Hne & Hnil).
    exists f, l, fi, t. repeat split; assumption.
Qed.

Lemma detect_flowers_records_witness :
  exists focal line filler texture,
    detect_flowers "a gift for my mother" "general"
    = Ok (roles_dict focal line filler texture) /\
    focal <> [] /\ line = [].
Proof.
  destruct (detect_flowers_records "a gift for my mother" "general")
    as (f & l & fi & t & H & _ & _ & _ & _ & Hfallback).
  exists f, l, fi, t. split; [exact H|]. apply Hfallback. reflexivity.
Defined.

(** The occasion matters to [detect_flowers] only through containing
    "wedding", and not at all when the intent names a flower. *)
Theorem detect_flowers_occasion (intent occasion1 occasion2 : string) :
  FlowerSpec.any_mention intent = true \/
  Str.contains "wedding" occasion1 = Str.contains "wedding" occasion2 ->
  detect_flowers intent occasion1 = detect_flowers intent occasion2.
Proof.
  rewrite !detect_flowers_cases. intros [-> | H]; [reflexivity|].
  destruct (FlowerSpec.any_mention intent); [reflexivity|].
  rewrite !suggest_flowers_by_occasion_branch. unfold FlowerSpec.branch_of.
  now rewrite H.
Qed.

Lemma detect_flowers_occasion_witness :
  detect_flowers "peonies please" "funeral" = detect_flowers "peonies please" "wedding"
  /\ detect_flowers "something bold" "birthday" = detect_flowers "something bold" "general".
Proof.
  split; apply detect_flowers_occasion; [left | right]; reflexivity.
Defined.

(** ** Foliage *)

Module FoliageSpec.

(** The foliage of one category that the intent names, as records. *)
Definition mentioned_in (intent category : string) (types : list (string * dict))
  : list pyval :=
  map (fun entry =>
         foliage_record (Str.replace "_" " " (fst entry)) category (snd entry))
      (filter (fun entry => Str.contains (Str.replace "_" " " (fst entry)) intent)
              types).

(** All the foliage the intent names: categories in table order, and in a
    category the names in table order. *)
Definition mentioned (intent : string) : list pyval :=
  flat_map (fun entry => mentioned_in intent (fst entry) (snd entry))
           FOLIAGE_TYPES.

Definition any_mention (intent : string) : bool :=
  existsb (fun category_entry =>
             existsb (fun entry =>
                        Str.contains (Str.replace "_" " " (fst entry)) intent)
                     (snd category_entry))
          FOLIAGE_TYPES.

(** The foliage suggested for a style: (category, name) pairs. *)
Definition suggested (style : dict) : list (string * string) :=
  if is_style "contemporary" "minimalist" style then
    [("structural", "eucalyptus")]
  else if is_style "contemporary" "garden_style" style then
    [("structural", "eucalyptus"); ("accent", "ivy")]
  else if eq_str (Dict.get style "category") "ikebana" then
    [("dramatic", "aspidistra")]
  else [("structural", "ruscus")].

Definition records (picks : list (string * string)) : res (list pyval) :=
  mapM (fun pick =>
          foliage_data <- foliage_entry (fst pick) (snd pick) ;;
          Ok (foliage_record (snd pick) (fst pick) foliage_data))
       picks.

End FoliageSpec.

Lemma scan_category_appends (intent category : string)
    (types : list (string * dict)) (foliage : list pyval) :
  for_each types foliage (fun foliage entry =>
    if Str.contains (Str.replace "_" " " (fst entry)) intent then
      Ok (append foliage
            (foliage_record (Str.replace "_" " " (fst entry)) category
               (snd entry)))
    else Ok foliage)
  = Ok (foliage ++ FoliageSpec.mentioned_in intent category types)%list.
Proof.
  unfold FoliageSpec.mentioned_in. revert foliage.
  induction types as [|[name data] types IH]; intros foliage;
    cbn [for_each filter map fst snd].
  - now rewrite app_nil_r.
  - destruct (Str.contains (Str.replace "_" " " name) intent); cbn [bind].
    + rewrite IH. unfold append. cbn [map fst snd]. now rewrite <- app_assoc.
    + apply IH.
Qed.

Lemma scan_foliage_mentioned (intent : string) :
  scan_foliage intent FOLIAGE_TYPES [] = Ok (FoliageSpec.mentioned intent).
Proof.
  unfold scan_foliage, FoliageSpec.mentioned.
  change (flat_map (fun entry => FoliageSpec.mentioned_in intent (fst entry)
                                   (snd entry)) FOLIAGE_TYPES)
    with ([] ++ flat_map (fun entry => FoliageSpec.mentioned_in intent
                            (fst entry) (snd entry)) FOLIAGE_TYPES)%list.
  generalize (@nil pyval) as foliage. generalize FOLIAGE_TYPES as table.
  induction table as [|[category types] table IH]; intros foliage;
    cbn [for_each flat_map fst snd].
  - now rewrite app_nil_r.
  - rewrite scan_category_appends. cbn [bind]. rewrite IH.
    now rewrite app_assoc.
Qed.

Lemma foliage_mentioned_nil (intent : string) :
  FoliageSpec.mentioned intent = [] <-> FoliageSpec.any_mention intent = false.
Proof.
  unfold FoliageSpec.mentioned, FoliageSpec.any_mention,
    FoliageSpec.mentioned_in.
  generalize FOLIAGE_TYPES as table.
  induction table as [|[category types] table IH]; cbn [flat_map existsb fst snd].
  - tauto.
  - rewrite orb_false_iff, <- IH. clear IH. split.
    + intros H. apply app_eq_nil in H. destruct H as [H1 H2].
      split; [|exact H2].
      induction types as [|e types IHt]; cbn [filter map existsb] in *;
        [reflexivity|].
      destruct (Str.contains _ intent); [discriminate H1 | now apply IHt].
    + intros [H1 H2]. rewrite H2, app_nil_r.
      induction types as [|e types IHt]; cbn [filter map existsb] in *;
        [reflexivity|].
      destruct (Str.contains _ intent); [discriminate H1 | now apply IHt].
Qed.

(** [detect_foliage] returns every foliage the intent names, categories and
    names in table order, whatever the style; when the intent names none the
    result is the suggestion for the style: eucalyptus for a contemporary
    minimalist style, eucalyptus and ivy for a contemporary garden style,
    aspidistra for an ikebana style, and ruscus for any other style record. *)
Theorem detect_foliage_mentions_or_style (intent : string) (style : dict) :
  detect_foliage intent style
  = if FoliageSpec.any_mention intent
    then Ok (FoliageSpec.mentioned intent)
    else FoliageSpec.records (FoliageSpec.suggested style).
Proof.
  unfold detect_foliage. rewrite scan_foliage_mentioned. cbn [bind].
  destruct (FoliageSpec.any_mention intent) eqn:E.
  - destruct (FoliageSpec.mentioned intent) eqn:Em; [|reflexivity].
    apply foliage_mentioned_nil in Em. congruence.
  - apply foliage_mentioned_nil in E. rewrite E.
    unfold FoliageSpec.suggested, is_style.
    case_eq_str; reflexivity.
Qed.

(** [detect_foliage] never raises and never returns an empty list; every
    record it returns has a string name. *)
Theorem detect_foliage_never_empty (intent : string) (style : dict) :
  exists foliage,
    detect_foliage intent style = Ok foliage /\ foliage <> [] /\
    Forall named foliage.
Proof.
  destruct (detect_foliage_named intent style) as (foliage & H & Hn & Hne).
  now exists foliage.
Qed.

(** ** Colour keywords *)

(** Beyond the palette names themselves, only four keywords select a
    palette. *)
Definition effective_palette_rules : list (list string * string) :=
  map (fun name => ([name], name)) (Dict.keys COLOR_PALETTES)
  ++ [(["fall"], "autumn"); (["wedding"], "romantic"); (["formal"], "elegant");
      (["bold"], "vibrant")].

Lemma detect_color_scheme_effective
    (intent color_preference occasion : string) :
  detect_color_scheme intent color_preference occasion
  = palette_record
      (match Spec.first_rule effective_palette_rules (Str.lower intent) with
       | Some name => name
       | None =>
           if Dict.mem color_preference COLOR_PALETTES then color_preference
           else "analogous"
       end).
Proof.
  rewrite detect_color_scheme_choice. unfold Spec.choose_palette.
  generalize (Str.lower intent) as text. intros text.
  destruct (Dict.mem color_preference COLOR_PALETTES);
    cbv [effective_palette_rules Spec.palette_rules Spec.first_rule
         Spec.mentions existsb Dict.keys map fst app COLOR_PALETTES];
    case_contains.
Qed.

Lemma detect_color_scheme_lower (intent color_preference occasion : string) :
  detect_color_scheme (Str.lower intent) color_preference occasion
  = detect_color_scheme intent color_preference occasion.
Proof. unfold detect_color_scheme. now rewrite lower_idempotent. Qed.

(** The season keywords spring, summer, autumn and winter and the mood
    keywords romantic, elegant and vibrant of [detect_color_scheme] are
    palette names, so the palette-name rule always answers first: the
    function behaves as if its keyword rules were only fall, wedding, formal
    and bold.  It reads the intent up to the case of its letters. *)
Theorem detect_color_scheme_effective_keywords
    (intent color_preference occasion : string) :
  detect_color_scheme intent color_preference occasion
  = palette_record
      (match Spec.first_rule effective_palette_rules (Str.lower intent) with
       | Some name => name
       | None =>
           if Dict.mem color_preference COLOR_PALETTES then color_preference
           else "analogous"
       end)
  /\ detect_color_scheme (Str.lower intent) color_preference occasion
     = detect_color_scheme intent color_preference occasion.
Proof.
  split; [apply detect_color_scheme_effective | apply detect_color_scheme_lower].
Qed.

(** ** Structure and context *)

(** For every style record [map_structure] returns exactly the six structure
    keys.  The balance is the radial technique when the style's balance is
    exactly "symmetrical" or "radial symmetrical" and the asymmetrical one
    otherwise, also when the style has no balance; the movement follows the
    type (cascade, vertical, horizontal, else the spiral); proportion and
    texture are constants; the bilateral balance is never chosen. *)
Theorem map_structure_balance_and_movement (style colors : dict) :
  exists structure,
    map_structure style colors = Ok structure /\
    Dict.keys structure
    = ["balance"; "movement"; "proportion"; "focal"; "density"; "texture"] /\
    Dict.getitem structure "balance"
    = (if eq_str (Dict.get style "balance") "symmetrical"
          || eq_str (Dict.get style "balance") "radial symmetrical"
       then technique "balance" "symmetrical_radial"
       else technique "balance" "asymmetrical") /\
    Dict.getitem structure "balance"
    <> technique "balance" "symmetrical_bilateral" /\
    Dict.getitem structure "movement"
    = (if eq_str (Dict.get style "type") "cascade"
       then technique "movement" "cascade_fall"
       else if eq_str (Dict.get style "type") "vertical"
       then technique "movement" "vertical_lift"
       else if eq_str (Dict.get style "type") "horizontal"
       then technique "movement" "horizontal_sweep"
       else technique "movement" "spiral_rotation") /\
    Dict.getitem structure "proportion" = technique "proportion" "golden_ratio" /\
    Dict.getitem structure "texture"
    = technique "texture" "smooth_rough_contrast".
Proof.
  unfold map_structure.
  destruct (Dict.get style "balance") as [balance|];
    [|change (eq_str None "symmetrical") with false;
      change (eq_str None "radial symmetrical") with false;
      change (eq_str (Some (PStr "asymmetrical")) "symmetrical") with false;
      change (eq_str (Some (PStr "asymmetrical")) "radial symmetrical")
        with false];
    case_eq_str; eexists; repeat split; try reflexivity;
    vm_compute; discriminate.
Qed.

(** [get_cultural_context] never raises and never answers with the Victorian
    tradition: an ikebana category gives the Japanese tradition, a
    contemporary category other than garden style the contemporary western
    one, and every other style record the European garden tradition. *)
Theorem get_cultural_context_traditions (style : dict) :
  get_cultural_context style
  = Dict.getitem CULTURAL_TRADITIONS
      (if eq_str (Dict.get style "category") "ikebana" then "japanese_ikebana"
       else if eq_str (Dict.get style "category") "contemporary"
               && negb (eq_str (Dict.get style "type") "garden_style")
       then "contemporary_western"
       else "european_garden")
  /\ (exists context, get_cultural_context style = Ok context)
  /\ get_cultural_context style <> Dict.getitem CULTURAL_TRADITIONS "victorian".
Proof.
  unfold get_cultural_context.
  case_eq_str; cbn [andb negb]; repeat split; try (eexists; reflexivity);
    vm_compute; discriminate.
Qed.

(** ** Occasions *)

Fixpoint has_upper (s : string) : bool :=
  match s with
  | EmptyString => false
  | String c t => Str.is_upper c || has_upper t
  end.

Lemma has_upper_app (a b : string) :
  has_upper (a ++ b) = has_upper a || has_upper b.
Proof.
  induction a as [|c a IH]; cbn [String.append has_upper]; [reflexivity|].
  now rewrite IH, orb_assoc.
Qed.

Lemma lower_char_not_upper (c : ascii) : Str.is_upper (Str.lower_char c) = false.
Proof. destruct c as [[] [] [] [] [] [] [] []]; reflexivity. Qed.

Lemma lower_not_upper (s : string) : has_upper (Str.lower s) = false.
Proof.
  induction s as [|c s IH]; cbn [Str.lower has_upper]; [reflexivity|].
  now rewrite lower_char_not_upper, IH.
Qed.

Lemma contains_lower_upper (needle text : string) :
  has_upper needle = true -> Str.contains needle (Str.lower text) = false.
Proof.
  intros Hup. destruct (Str.contains needle (Str.lower text)) eqn:E;
    [|reflexivity].
  apply contains_substring in E. destruct E as (a & b & E).
  pose proof (lower_not_upper text) as H. rewrite E, !has_upper_app, Hup in H.
  now rewrite orb_true_r in H.
Qed.

Lemma occasion_by_keyword_upper
    (table : list (string * list (string * dict))) (occasion : string) :
  has_upper occasion = true -> occasion_by_keyword table occasion = None.
Proof.
  intros Hup. induction table as [|[name data] table IH];
    cbn [occasion_by_keyword]; [reflexivity|].
  now rewrite (contains_lower_upper _ _ Hup).
Qed.

(** An occasion with an upper-case letter always gets the general record from
    [map_occasion]: the keys of the table are lower-case, and the keyword
    search lower-cases the text of the entries but not the occasion. *)
Theorem map_occasion_upper_case (occasion : string) (style : dict) :
  has_upper occasion = true ->
  map_occasion occasion style = Ok general_occasion.
Proof.
  intros Hup. unfold map_occasion.
  rewrite (occasion_by_keyword_upper _ _ Hup).
  assert (Hkey : Dict.mem occasion OCCASIONS = false).
  { revert Hup. cbv [OCCASIONS Dict.mem Dict.get].
    case_eqb occasion; try discriminate. reflexivity. }
  now rewrite Hkey.
Qed.

Lemma map_occasion_upper_case_witness :
  map_occasion "Wedding" [] = Ok general_occasion.
Proof. apply map_occasion_upper_case. reflexivity. Defined.

(** On a key of the occasion table the two occasion lookups agree:
    [map_occasion] returns the sub-table and [suggest_flowers_for_occasion]
    returns the same sub-table under "recommendations".  On any other
    occasion [suggest_flowers_for_occasion] reports an error, also where
    [map_occasion] finds the occasion by keyword. *)
Theorem occasion_lookups_agree (occasion : string) (style : dict) :
  (Dict.mem occasion OCCASIONS = true ->
   exists specs,
     map_occasion occasion style = Ok specs /\
     suggest_flowers_for_occasion occasion
     = Ok [("occasion", PStr occasion); ("recommendations", PDict specs)])
  /\ (Dict.mem occasion OCCASIONS = false ->
      exists suggestion,
        suggest_flowers_for_occasion occasion = Ok suggestion /\
        Dict.mem "error" suggestion = true /\
        Dict.mem "recommendations" suggestion = false).
Proof.
  unfold map_occasion, suggest_flowers_for_occasion. split; intros H; rewrite H.
  - destruct (mem_getitem _ _ H) as (data & _ & ->). cbn [bind].
    eexists. split; reflexivity.
  - eexists. repeat split.
Qed.

Lemma occasion_lookups_agree_witness :
  (exists specs,
     map_occasion "funeral" [] = Ok specs /\
     suggest_flowers_for_occasion "funeral"
     = Ok [("occasion", PStr "funeral"); ("recommendations", PDict specs)])
  /\ (exists suggestion,
        suggest_flowers_for_occasion "birthday" = Ok suggestion /\
        Dict.mem "error" suggestion = true /\
        Dict.mem "recommendations" suggestion = false).
Proof.
  split.
  - apply (proj1 (occasion_lookups_agree "funeral" [])). reflexivity.
  - apply (proj2 (occasion_lookups_agree "birthday" [])). reflexivity.
Defined.

(** ** Sizes written in decimal *)















(** ** What the sentence depends on *)



Definition sentence_keys : list string :=
  ["style"; "flowers"; "foliage"; "colors"; "structure"].



(** A mapping result that lacks one of the five entries the sentence reads
    makes [format_prompt_enhancement] raise [KeyError] for the first missing
    one, in the order style, flowers, foliage, colors, structure. *)
Theorem format_prompt_enhancement_missing_key (mapped : dict) (key : string) :
  find (fun k => negb (Dict.mem k mapped)) sentence_keys = Some key ->
  format_prompt_enhancement mapped = Raise (KeyError key).
Proof.
  unfold format_prompt_enhancement, prompt_parts, sentence_keys, Dict.mem,
    Dict.getitem.
  cbn [find].
  destruct (Dict.get mapped "style"); cbn [negb bind];
    [|now intros [= <-]].
  destruct (Dict.get mapped "flowers"); cbn [negb bind];
    [|now intros [= <-]].
  destruct (Dict.get mapped "foliage"); cbn [negb bind];
    [|now intros [= <-]].
  destruct (Dict.get mapped "colors"); cbn [negb bind];
    [|now intros [= <-]].
  destruct (Dict.get mapped "structure"); cbn [negb bind];
    [discriminate | now intros [= <-]].
Qed.

Lemma format_prompt_enhancement_missing_key_witness :
  format_prompt_enhancement [("style", PDict []); ("colors", PDict [])]
  = Raise (KeyError "flowers").
Proof. apply format_prompt_enhancement_missing_key. reflexivity. Defined.

(** ** The two tools *)

Lemma getitem_mapping_result (user_intent : string) (style flowers : dict)
    (foliage : list pyval) (colors structure occasion context : dict) :
  let mapped := mapping_result user_intent style flowers foliage colors
                  structure occasion context in
  Dict.getitem mapped "style" = Ok (PDict style) /\
  Dict.getitem mapped "flowers" = Ok (PDict flowers) /\
  Dict.getitem mapped "foliage" = Ok (PList foliage) /\
  Dict.getitem mapped "colors" = Ok (PDict colors) /\
  Dict.getitem mapped "structure" = Ok (PDict structure) /\
  Dict.getitem mapped "occasion" = Ok (PDict occasion) /\
  Dict.getitem mapped "cultural_context" = Ok (PDict context).
Proof. repeat split. Qed.

(** [enhance_floral_prompt] never raises.  Its result has ten entries: the
    intent as given, the seven entries of the mapping result unchanged, the
    sentence that [format_prompt_enhancement] makes of that mapping result,
    and the fixed synthesis instruction. *)
Theorem enhance_floral_prompt_total
    (user_intent style_preference occasion color_scheme : string) :
  exists result mapped prompt,
    enhance_floral_prompt user_intent style_preference occasion color_scheme
    = Ok result /\
    map_floral_taxonomy user_intent style_preference occasion color_scheme
    = Ok mapped /\
    format_prompt_enhancement mapped = Ok prompt /\
    Dict.keys result
    = (Dict.keys mapped ++ ["enhanced_prompt"; "synthesis_instruction"])%list /\
    (forall key, In key (Dict.keys mapped) ->
                 Dict.get result key = Dict.get mapped key) /\
    Dict.get result "enhanced_prompt" = Some (PStr prompt) /\
    Dict.get result "synthesis_instruction"
    = Some (PStr synthesis_instruction_text).
Proof.
  unfold enhance_floral_prompt.
  destruct (map_floral_taxonomy_shaped user_intent style_preference occasion
              color_scheme) as (mapped & style & Hm & _ & Hshaped).
  destruct (map_floral_taxonomy_keys user_intent style_preference occasion
              color_scheme) as (mapped' & _ & _ & Hm' & _ & Hecho & _).
  rewrite Hm in Hm'. injection Hm' as <-.
  rewrite Hm. cbn [bind].
  destruct (shaped_formats _ _ Hshaped) as (_ & prompt & Hprompt).
  rewrite Hprompt. cbn [bind].
  destruct Hshaped
    as (u & focal & line & filler & texture & foliage & colors & structure
        & specs & context & category & type & container & -> & _).
  change (Some (PStr u) = Some (PStr user_intent)) in Hecho.
  injection Hecho as ->.
  unfold mapping_result.
  cbn [Dict.getitem Dict.get String.eqb Ascii.eqb Bool.eqb bind].
  do 3 eexists. split; [reflexivity|]. split; [reflexivity|].
  split; [exact Hprompt|]. repeat split.
  intros key Hin. cbn [Dict.keys map fst In] in Hin.
  repeat (destruct Hin as [<- | Hin]; [reflexivity|]). contradiction.
Qed.



(** ** Preferences are honoured *)

(** Every style of the table can be selected by preference: when no trigger
    phrase occurs in the intent, the preference naming a type of the table
    gives the record of that type with the category it is listed under. *)
Theorem style_preference_selects
    (intent category type : string) (styles : list (string * dict))
    (entry : dict) :
  style_trigger intent = false ->
  In (category, styles) ARRANGEMENT_STYLES -> In (type, entry) styles ->
  detect_arrangement_style intent type
  = Ok (Dict.spread [("category", PStr category); ("type", PStr type)] entry).
Proof.
  unfold style_trigger. intros Htrigger Hcategory Htype.
  rewrite detect_arrangement_style_choice. unfold Spec.choose_style.
  destruct (Spec.first_rule Spec.style_rules intent); [discriminate|].
  unfold ARRANGEMENT_STYLES in Hcategory. cbn [In] in Hcategory.
  repeat (destruct Hcategory as [Hcategory | Hcategory];
          [injection Hcategory as <- <-; cbn [In] in Htype;
           repeat (destruct Htype as [Htype | Htype];
                   [injection Htype as <- <-; reflexivity|]);
           contradiction|]).
  contradiction.
Qed.

Lemma style_preference_selects_witness :
  exists entry,
    detect_arrangement_style "flowers for the hall" "hogarth"
    = Ok (Dict.spread [("category", PStr "western_classical");
                       ("type", PStr "hogarth")] entry).
Proof.
  eexists.
  apply (style_preference_selects "flowers for the hall" "western_classical"
           "hogarth" (nth 1 (map snd ARRANGEMENT_STYLES) [])).
  - reflexivity.
  - vm_compute. tauto.
  - vm_compute. right. right. left. reflexivity.
Defined.

(** Every palette of the table can be selected by preference: when the
    lower-cased intent holds no palette name and none of fall, wedding, formal
    and bold, the preference naming a palette gives the record of that
    palette, and a preference that names none, such as the default
    "harmonious", gives the analogous palette. *)
Theorem color_preference_selects
    (intent color_preference occasion : string) :
  Spec.first_rule effective_palette_rules (Str.lower intent) = None ->
  (forall palette_data,
     In (color_preference, palette_data) COLOR_PALETTES ->
     detect_color_scheme intent color_preference occasion
     = Ok (Dict.spread [("palette", PStr color_preference)] palette_data))
  /\ (Dict.mem color_preference COLOR_PALETTES = false ->
      detect_color_scheme intent color_preference occasion
      = palette_record "analogous").
Proof.
  intros Hnone.
  rewrite detect_color_scheme_effective, Hnone. split.
  - intros data Hin. unfold COLOR_PALETTES in Hin. cbn [In] in Hin.
    repeat (destruct Hin as [Hin | Hin]; [injection Hin as <- <-; reflexivity|]).
    contradiction.
  - intros ->. reflexivity.
Qed.

Lemma color_preference_selects_witness :
  (exists palette_data,
     detect_color_scheme "Tulips for a friend" "triadic" "general"
     = Ok (Dict.spread [("palette", PStr "triadic")] palette_data))
  /\ detect_color_scheme "Tulips for a friend" "harmonious" "general"
     = palette_record "analogous".
Proof.
  split.
  - eexists.
    apply (proj1 (color_preference_selects "Tulips for a friend" "triadic"
                    "general" eq_refl)
             (nth 3 (map snd COLOR_PALETTES) [])).
    vm_compute. tauto.
  - apply (proj2 (color_preference_selects "Tulips for a friend" "harmonious"
                    "general" eq_refl)).
    reflexivity.
Defined.

(** ** How the stages compose *)

Lemma palette_record_name (name : string) (palette_data : dict) :
  Dict.get COLOR_PALETTES name = Some palette_data ->
  Dict.get (Dict.spread [("palette", PStr name)] palette_data) "palette"
  = Some (PStr name).
Proof.
  cbv [COLOR_PALETTES Dict.get].
  case_eqb name; try discriminate; intros [= <-]; reflexivity.
Qed.

Lemma map_floral_taxonomy_stages
    (user_intent style_preference occasion color_scheme : string) :
  exists (style : dict) (focal line filler texture foliage : list pyval)
         (colors structure specs context : dict),
    detect_arrangement_style (Str.lower user_intent) style_preference
    = Ok style /\
    detect_flowers (Str.lower user_intent) occasion
    = Ok (roles_dict focal line filler texture) /\
    detect_foliage (Str.lower user_intent) style = Ok foliage /\
    detect_color_scheme (Str.lower user_intent) color_scheme occasion
    = Ok colors /\
    map_structure style colors = Ok structure /\
    map_occasion occasion style = Ok specs /\
    get_cultural_context style = Ok context /\
    map_floral_taxonomy user_intent style_preference occasion color_scheme
    = Ok (mapping_result user_intent style
            (roles_dict focal line filler texture) foliage colors structure
            specs context) /\
    shaped (mapping_result user_intent style
              (roles_dict focal line filler texture) foliage colors structure
              specs context) style /\
    (Forall named focal /\ Forall named line /\ Forall named filler /\
     Forall named texture /\ Forall named foliage) /\
    (exists category type,
       Dict.get style "category" = Some (PStr category) /\
       Dict.get style "type" = Some (PStr type)) /\
    (exists palette,
       Dict.get colors "palette" = Some (PStr palette) /\
       Dict.mem palette COLOR_PALETTES = true) /\
    (exists balance description,
       Dict.getitem structure "balance" = Ok balance /\
       subscript balance "description" = Ok description).
Proof.
  unfold map_floral_taxonomy.
  destruct (detect_arrangement_style_fields (Str.lower user_intent)
              style_preference)
    as (style & container & Hstyle & Hcategory & Htype & Hcontainer).
  destruct (detect_flowers_named (Str.lower user_intent) occasion)
    as (focal & line & filler & texture & Hflowers & Hfocal & Hline & Hfiller
        & Htexture).
  destruct (detect_foliage_named (Str.lower user_intent) style)
    as (foliage & Hfol & Hfoliage & _).
  destruct (detect_color_scheme_record (Str.lower user_intent) color_scheme
              occasion) as (data & Hdata & Hcol).
  pose proof (palette_record_joinable _ _ Hdata) as Hcolors.
  pose proof (palette_record_name _ _ Hdata) as Hpalette.
  set (colors := Dict.spread _ data) in *.
  destruct (map_structure_fields style colors)
    as (structure & Hstr & _ & _ & _ & Hbalance & Hmovement).
  destruct (map_occasion_total occasion style) as (specs & Hocc).
  destruct (get_cultural_context_total style) as (context & Hctx).
  exists style, focal, line, filler, texture, foliage, colors, structure,
    specs, context.
  rewrite Hstyle, Hflowers. cbn [bind]. rewrite Hfol, Hcol. cbn [bind].
  rewrite Hstr, Hocc, Hctx. cbn [bind].
  repeat (split; [reflexivity|]).
  split; [|split; [|split; [|split]]].
  - exists user_intent, focal, line, filler, texture, foliage, colors,
      structure, specs, context.
    do 3 eexists. repeat split; eassumption.
  - repeat split; assumption.
  - do 2 eexists. split; eassumption.
  - eexists. split; [exact Hpalette|]. apply choose_palette_known.
  - exact Hbalance.
Qed.

(** No stage of [map_floral_taxonomy] fails, so its result is made of the
    results of the stages: the style detected on the lower-cased intent, the
    flowers and the palette detected on it, the foliage detected for that
    style, the structure mapped from that style and palette, and the occasion
    record and cultural context of that style. *)
Theorem map_floral_taxonomy_composition
    (user_intent style_preference occasion color_scheme : string) :
  exists (style flowers : dict) (foliage : list pyval)
         (colors structure specs context : dict),
    detect_arrangement_style (Str.lower user_intent) style_preference
    = Ok style /\
    detect_flowers (Str.lower user_intent) occasion = Ok flowers /\
    detect_foliage (Str.lower user_intent) style = Ok foliage /\
    detect_color_scheme user_intent color_scheme occasion = Ok colors /\
    map_structure style colors = Ok structure /\
    map_occasion occasion style = Ok specs /\
    get_cultural_context style = Ok context /\
    map_floral_taxonomy user_intent style_preference occasion color_scheme
    = Ok (mapping_result user_intent style flowers foliage colors structure
            specs context).
Proof.
  destruct (map_floral_taxonomy_stages user_intent style_preference occasion
              color_scheme)
    as (style & focal & line & filler & texture & foliage & colors & structure
        & specs & context & H1 & H2 & H3 & H4 & H5 & H6 & H7 & H8 & _).
  exists style, (roles_dict focal line filler texture), foliage, colors,
    structure, specs, context.
  repeat split; try assumption.
  rewrite <- H4. symmetry. apply detect_color_scheme_lower.
Qed.


